(** * pandas_decorators: column and type contracts on functions over dataframes

    A shallow embedding of [pandas_decorators.py]: the column checker
    [_check_columns], the parameter locator [_get_parameter], and the three
    decorator factories [df_in], [df_out] and [df_log], followed by the
    properties the specification states about them.

    Python is modelled in its default mode ([assert] statements are
    executed).  Exceptions are values of an error monad; the wrappers, which
    call user functions and the logging facility, live in a state-and-error
    monad over an explicit [world]. *)

From Stdlib Require Import ZArith.
From stdpp Require Import base decidable option list strings gmap sets.

Open Scope string_scope.
Open Scope list_scope.

(** ** Data *)

(** A numpy/pandas element type; [dtype_name] is its [.name]. The object a
    dict-form specification declares for a column is taken as the dtype
    it denotes, and [==] between the two as equality of dtypes. *)
Record dtype := Dtype { dtype_name : string }.

#[global] Instance dtype_eq_dec : EqDecision dtype.
Proof. solve_decision. Defined.

(** A [pd.DataFrame] as far as this module inspects it: the ordered column
    labels with the element type of each column. Labels are strings, and a
    label may be carried by several columns. *)
Record DataFrame := Frame { df_cols : list (string * dtype) }.

(** [df.columns] *)
Definition df_columns (df : DataFrame) : list string := (df_cols df).*1.

(** [df.dtypes] *)
Definition df_dtypes (df : DataFrame) : list dtype := (df_cols df).*2.

(** The first value an association list holds for a key. *)
Fixpoint assoc {A : Type} (k : string) (l : list (string * A)) : option A :=
  match l with
  | [] => None
  | (k', a) :: rest => if decide (k' = k) then Some a else assoc k rest
  end.

(** The element type of the column labelled [column], if there is one: in
    a frame with distinct labels, the element type of that one column (the
    first column carrying the label is read). *)
Definition column_dtype (df : DataFrame) (column : string) : option dtype :=
  assoc column (df_cols df).

(** Python values that reach the decorators. *)
Inductive value :=
  | VNone
  | VBool (b : bool)
  | VInt (n : Z)
  | VStr (s : string)
  | VDataFrame (df : DataFrame)
  | VObject (cls : string).

(** [type(v).__name__] *)
Definition type_name (v : value) : string :=
  match v with
  | VNone => "NoneType"
  | VBool _ => "bool"
  | VInt _ => "int"
  | VStr _ => "str"
  | VDataFrame _ => "DataFrame"
  | VObject cls => cls
  end.

(** [isinstance(v, pd.DataFrame)] *)
Definition is_dataframe (v : value) : bool :=
  match v with VDataFrame _ => true | _ => false end.

(** ** Messages

    The text of an f-string, kept as its sequence of parts: the literal
    pieces and the interpolated values, each tagged with how Python
    formats it. *)
Inductive part :=
  | Lit (s : string)                  (* literal text *)
  | FStr (s : string)                 (* [{s}] for a str: the string itself *)
  | FRepr (s : string)                (* [{s!r}] for a str: its repr *)
  | FList (l : list string)           (* [{l}] for a list of str: its repr *)
  | FDtype (d : dtype)                (* [{d}] for an element type *)
  | FType (cls : string)              (* [{type(v)}]: the class object *)
  | FJoin (sep : string) (s : gset string). (* [sep.join(s)] for a set, in the set's order *)

Definition message := list part.

(** ** Exceptions and the error monad *)

Inductive exn_class :=
  | AssertionError
  | TypeError
  | IndexError
  | ValueError
  | KeyError
  | AttributeError
  | UserError (cls : string).

Definition exn : Type := exn_class * message.

Inductive outcome (A : Type) :=
  | Returned (a : A)
  | Raised (e : exn).
Arguments Returned {A} a.
Arguments Raised {A} e.

#[global] Instance outcome_ret : MRet outcome := λ A a, Returned a.
#[global] Instance outcome_bind : MBind outcome := λ A B f m,
  match m with
  | Returned a => f a
  | Raised e => Raised e
  end.

#[global] Instance outcome_fmap : FMap outcome := λ A B f m,
  match m with
  | Returned a => Returned (f a)
  | Raised e => Raised e
  end.

(** [assert cond, msg] *)
Definition assert_ (cond : bool) (msg : message) : outcome unit :=
  if cond then Returned tt else Raised (AssertionError, msg).

(** [for x in xs: body(x)], for a body that only returns or raises. *)
Fixpoint for_each {A : Type} (xs : list A) (body : A → outcome unit) : outcome unit :=
  match xs with
  | [] => Returned tt
  | x :: rest => body x ≫= λ _, for_each rest body
  end.

(** [t[i]] for a tuple [t] and [0 <= i]. *)
Definition tuple_getitem {A : Type} (t : list A) (i : nat) : outcome A :=
  match t !! i with
  | Some a => Returned a
  | None => Raised (IndexError, [Lit "tuple index out of range"])
  end.

(** [l.index(x)] *)
Fixpoint list_index (l : list string) (x : string) : outcome nat :=
  match l with
  | [] => Raised (ValueError, [FRepr x; Lit " is not in list"])
  | y :: rest => if decide (y = x) then Returned 0 else S <$> list_index rest x
  end.

(** [df[column].dtype] as the dict form uses it, up to the truth test of
    the assertion on [df[column].dtype == dtype]. For a label that one
    column carries, [df[column]] is a series and the element type is that
    column's. For a label no column carries, [df[column]] raises
    [KeyError]. For a label several columns carry, [df[column]] is a frame
    of these columns: a frame has no attribute [dtype] and raises
    [AttributeError], unless the label itself is ["dtype"], for which the
    frame answers the attribute with its columns of that label, the
    comparison gives a frame, and its truth test raises [ValueError]. *)
Definition df_getitem_dtype (df : DataFrame) (column : string) : outcome dtype :=
  match filter (λ c : string * dtype, c.1 = column) (df_cols df) with
  | [] => Raised (KeyError, [FRepr column])
  | [c] => Returned c.2
  | _ :: _ :: _ =>
      if decide (column = "dtype") then
        Raised (ValueError,
          [Lit "The truth value of a DataFrame is ambiguous. Use a.empty, a.bool(), a.item(), a.any() or a.all()."])
      else
        Raised (AttributeError, [Lit "'DataFrame' object has no attribute 'dtype'"])
  end.

(** ** Column specifications: [ColumnsDef = Union[List, Dict]]

    A dict is kept as its items in insertion order, the order in which the
    checker visits them. *)
Inductive ColumnsDef :=
  | ColList (l : list string)
  | ColDict (d : list (string * dtype)).

(** [len(columns)] *)
Definition spec_len (columns : ColumnsDef) : nat :=
  match columns with
  | ColList l => length l
  | ColDict d => length d
  end.

(** The names a specification declares: what iterating over it yields, the
    elements of a list and the keys of a dict. *)
Definition spec_names (columns : ColumnsDef) : list string :=
  match columns with
  | ColList l => l
  | ColDict d => d.*1
  end.

(** The truth value of an optional specification: [None], [[]] and [{}]
    are false. *)
Definition spec_truth (columns : option ColumnsDef) : bool :=
  match columns with
  | None => false
  | Some c => negb (Nat.eqb (spec_len c) 0)
  end.

(** ** [_describe_pd] *)
Definition _describe_pd (df : DataFrame) (include_dtypes : bool) : message :=
  let result := [Lit "columns: "; FList (df_columns df)] in
  if include_dtypes then
    let readable_dtypes := dtype_name <$> df_dtypes df in
    result ++ [Lit " with dtypes "; FList readable_dtypes]
  else result.

(** ** [_check_columns] *)

(** The three assertion messages of [_check_columns]. *)
Definition missing_column_msg (column : string) (df : DataFrame) : message :=
  [Lit "Column "; FStr column; Lit " missing from DataFrame. Got "] ++ _describe_pd df false.

Definition wrong_dtype_msg (column : string) (actual expected : dtype) : message :=
  [Lit "Column "; FStr column; Lit " has wrong dtype. Was "; FDtype actual;
   Lit ", expected "; FDtype expected].

Definition unexpected_columns_msg (df : DataFrame) (columns : ColumnsDef) : message :=
  [Lit "DataFrame contained unexpected column(s): ";
   FJoin ", " (list_to_set (df_columns df) ∖ list_to_set (spec_names columns))].

Definition _check_columns (df : DataFrame) (columns : ColumnsDef) (strict : bool) : outcome unit :=
  (match columns with
   | ColList l =>
       for_each l (λ column,
         assert_ (bool_decide (column ∈ df_columns df)) (missing_column_msg column df))
   | ColDict _ => Returned tt
   end) ≫= λ _,
  (match columns with
   | ColDict d =>
       for_each d (λ '(column, dtype),
         assert_ (bool_decide (column ∈ df_columns df)) (missing_column_msg column df) ≫= λ _,
         df_getitem_dtype df column ≫= λ actual,
         assert_ (bool_decide (actual = dtype)) (wrong_dtype_msg column actual dtype))
   | ColList _ => Returned tt
   end) ≫= λ _,
  if strict then
    assert_ (bool_decide (length (df_columns df) = spec_len columns))
            (unexpected_columns_msg df columns)
  else Returned tt.

(** What the loop body of the dict form does for one item. *)
Definition check_item (S : DataFrame) (item : string * dtype) : outcome unit :=
  assert_ (bool_decide (item.1 ∈ df_columns S)) (missing_column_msg item.1 S) ≫= λ _,
  df_getitem_dtype S item.1 ≫= λ actual,
  assert_ (bool_decide (actual = item.2)) (wrong_dtype_msg item.1 actual item.2).

(** ** The world, and the monad of the wrappers *)

(** A record handed to [logging.log]. *)
Record log_record := LogRecord { log_level : Z; log_msg : message }.

(** What a call can change: the records given to the logging facility, and
    the effects the bodies of user functions leave behind (a probe appends
    a value to [effects]). *)
Record world := World { logged : list log_record; effects : list value }.

Definition py (A : Type) : Type := world → outcome A * world.

#[global] Instance py_ret : MRet py := λ A a w, (Returned a, w).
#[global] Instance py_bind : MBind py := λ A B f m w,
  match m w with
  | (Returned a, w') => f a w'
  | (Raised e, w') => (Raised e, w')
  end.

(** A computation that only returns or raises leaves the world as it is. *)
Definition lift {A : Type} (o : outcome A) : py A := λ w, (o, w).

(** [logging.log(level, msg)] *)
Definition logging_log (level : Z) (msg : message) : py unit := λ w,
  (Returned tt, World (logged w ++ [LogRecord level msg]) (effects w)).

(** A Python function: its [__name__], the parameter names of its
    signature in declared order ([inspect.signature(f).parameters.keys()]),
    and what calling it on the positional arguments [args] and the keyword
    arguments [kwargs] does. Keyword arguments are the items of the
    [kwargs] dict, in the order of the call. *)
Record Callable := Def {
  fn_name : string;
  fn_params : list string;
  fn_call : list value → list (string * value) → py value
}.

(** ** [_get_parameter] *)

(** The truth value of [name : Optional[str]]: [None] and the empty string
    are false. *)
Definition name_truth (name : option string) : bool :=
  match name with
  | None => false
  | Some n => bool_decide (n ≠ "")
  end.

(** [kwargs[k]] *)
Definition dict_getitem (kwargs : list (string * value)) (k : string) : outcome value :=
  match assoc k kwargs with
  | Some v => Returned v
  | None => Raised (KeyError, [FRepr k])
  end.

(** The body of [_get_parameter], on its bound parameters: [args] is the
    tuple of surplus positional arguments, [kwargs] the dict of surplus
    keyword arguments. Past the first [if], [name] is a non-empty string,
    written [n]. *)
Definition _get_parameter (func : Callable) (name : option string)
    (args : list value) (kwargs : list (string * value)) : outcome value :=
  if negb (name_truth name) then
    if bool_decide (length args = 0) then Returned VNone
    else tuple_getitem args 0
  else
    let n := default "" name in
    if name_truth name && negb (bool_decide (n ∈ kwargs.*1)) then
      let func_params_in_order := fn_params func in
      list_index func_params_in_order n ≫= λ parameter_location,
      tuple_getitem args parameter_location
    else dict_getitem kwargs n.

(** The call [_get_parameter(func, name, *args, **kwargs)] the wrappers
    make. The two leading positional arguments bind the parameters [func]
    and [name] of [_get_parameter]; a keyword of the caller spelled like
    one of these is a second value for that parameter, and Python refuses
    the call at the first such keyword. *)
Definition call__get_parameter (func : Callable) (name : option string)
    (args : list value) (kwargs : list (string * value)) : outcome value :=
  match filter (λ k, k ∈ ["func"; "name"]) kwargs.*1 with
  | k :: _ =>
      Raised (TypeError,
        [Lit "_get_parameter() got multiple values for argument '"; FStr k; Lit "'"])
  | [] => _get_parameter func name args kwargs
  end.

(** ** The decorators *)

(** [assert isinstance(v, pd.DataFrame), msg], giving the frame. *)
Definition assert_dataframe (v : value) (msg : message) : outcome DataFrame :=
  match v with
  | VDataFrame df => Returned df
  | _ => Raised (AssertionError, msg)
  end.

(** [if columns: _check_columns(df, columns, strict)] *)
Definition check_if_given (df : DataFrame) (columns : option ColumnsDef)
    (strict : bool) : outcome unit :=
  if spec_truth columns then
    match columns with
    | Some c => _check_columns df c strict
    | None => Returned tt
    end
  else Returned tt.

Definition wrong_return_type_msg (result : value) : message :=
  [Lit "Wrong return type. Expected pandas dataframe, got "; FType (type_name result)].

Definition wrong_parameter_type_msg (df : value) : message :=
  [Lit "Wrong parameter type. Expected Pandas DataFrame, got "; FStr (type_name df);
   Lit " instead."].

(** [df_out(columns, strict)(func)]; [@wraps(func)] keeps the name and the
    signature of [func]. *)
Definition df_out (columns : option ColumnsDef) (strict : bool) (func : Callable) : Callable :=
  {| fn_name := fn_name func;
     fn_params := fn_params func;
     fn_call := λ args kwargs,
       fn_call func args kwargs ≫= λ result,
       lift (assert_dataframe result (wrong_return_type_msg result)) ≫= λ frame,
       lift (check_if_given frame columns strict) ≫= λ _,
       mret result |}.

(** [df_in(name, columns, strict)(func)] *)
Definition df_in (name : option string) (columns : option ColumnsDef) (strict : bool)
    (func : Callable) : Callable :=
  {| fn_name := fn_name func;
     fn_params := fn_params func;
     fn_call := λ args kwargs,
       lift (call__get_parameter func name args kwargs) ≫= λ df,
       lift (assert_dataframe df (wrong_parameter_type_msg df)) ≫= λ frame,
       lift (check_if_given frame columns strict) ≫= λ _,
       fn_call func args kwargs |}.

(** [_log_input] *)
Definition _log_input (level : Z) (func_name : string) (df : value)
    (include_dtypes : bool) : py unit :=
  match df with
  | VDataFrame frame =>
      logging_log level
        ([Lit "Function "; FStr func_name; Lit " parameters contained a DataFrame: "]
         ++ _describe_pd frame include_dtypes)
  | _ => mret tt
  end.

(** [_log_output] *)
Definition _log_output (level : Z) (func_name : string) (df : value)
    (include_dtypes : bool) : py unit :=
  match df with
  | VDataFrame frame =>
      logging_log level
        ([Lit "Function "; FStr func_name; Lit " returned a DataFrame: "]
         ++ _describe_pd frame include_dtypes)
  | _ => mret tt
  end.

(** [df_log(level, include_dtypes)(func)]; the wrapper ends without a
    [return], so a completed call gives [None]. *)
Definition df_log (level : Z) (include_dtypes : bool) (func : Callable) : Callable :=
  {| fn_name := fn_name func;
     fn_params := fn_params func;
     fn_call := λ args kwargs,
       lift (call__get_parameter func None args kwargs) ≫= λ parameter,
       _log_input level (fn_name func) parameter include_dtypes ≫= λ _,
       fn_call func args kwargs ≫= λ result,
       _log_output level (fn_name func) result include_dtypes ≫= λ _,
       mret VNone |}.

(** ** Sample data *)

Definition int64 : dtype := Dtype "int64".
Definition float64 : dtype := Dtype "float64".

Definition frame_a : DataFrame := Frame [("a", int64)].
Definition frame_ab : DataFrame := Frame [("a", int64); ("b", float64)].
Definition frame_a_float : DataFrame := Frame [("a", float64)].
Definition frame_ab_extra : DataFrame :=
  Frame [("a", int64); ("b", float64); ("extra", int64)].

Definition w0 : world := World [] [].

(** A function of one parameter [df] whose body leaves a mark in the world
    and returns its first positional argument ([None] without one). *)
Definition probe : Callable :=
  Def "probe" ["df"] (λ args kwargs w,
    (Returned (default VNone (head args)),
     World (logged w) (effects w ++ [VStr "probe ran"]))).

(** A function of two optional parameters, [df] and [name], that returns
    [None]. *)
Definition load : Callable :=
  Def "load" ["df"; "name"] (λ args kwargs w,
    (Returned VNone, World (logged w) (effects w ++ [VStr "load ran"]))).

(** A function of two parameters, [left] and [right], that returns its first
    positional argument ([None] without one). *)
Definition merge : Callable :=
  Def "merge" ["left"; "right"] (λ args kwargs w,
    (Returned (default VNone (head args)),
     World (logged w) (effects w ++ [VStr "merge ran"]))).

(** A function whose body raises. *)
Definition failing : Callable :=
  Def "failing" ["df"] (λ args kwargs w,
    (Raised (UserError "RuntimeError", [Lit "boom"]),
     World (logged w) (effects w ++ [VStr "failing ran"]))).

(** * Properties *)

(** ** Loops and assertions *)

Lemma assert_Returned cond msg : assert_ cond msg = Returned tt ↔ cond = true.
Proof. destruct cond; simpl; split; congruence. Qed.

Lemma assert_Raised cond msg e :
  assert_ cond msg = Raised e ↔ cond = false ∧ e = (AssertionError, msg).
Proof.
  destruct cond; simpl; split.
  - done.
  - by intros [??].
  - intros [= <-]. done.
  - by intros [_ ->].
Qed.

Lemma outcome_unit_cases (o : outcome unit) : o = Returned tt ∨ ∃ e, o = Raised e.
Proof. destruct o as [[]|e]; eauto. Qed.

Lemma for_each_Returned {A} (xs : list A) body :
  for_each xs body = Returned tt ↔ ∀ x, x ∈ xs → body x = Returned tt.
Proof.
  induction xs as [|x xs IH]; simpl.
  - split; [ intros _ x Hx; inversion Hx | done ].
  - split.
    + intros H y Hy. destruct (body x) as [[]|e] eqn:Hx; simpl in H; [|done].
      apply elem_of_cons in Hy as [->|Hy]; [done|]. by apply IH.
    + intros H. rewrite (H x) by (apply elem_of_cons; auto). simpl.
      apply IH. intros y Hy. apply H. by (apply elem_of_cons; auto).
Qed.

(** A loop that raises raises what its body raised at the first element
    the body refuses. *)
Lemma for_each_Raised {A} (xs : list A) body e :
  for_each xs body = Raised e ↔
  ∃ pre x post, xs = pre ++ x :: post ∧ (∀ y, y ∈ pre → body y = Returned tt) ∧ body x = Raised e.
Proof.
  induction xs as [|x xs IH]; simpl.
  - split; [done|]. intros (pre & y & post & Heq & _). by destruct pre.
  - destruct (body x) as [[]|e'] eqn:Hx; simpl.
    + rewrite IH. split.
      * intros (pre & y & post & -> & Hpre & Hy). exists (x :: pre), y, post.
        split_and!; [done | | done].
        intros z Hz. apply elem_of_cons in Hz as [->|Hz]; auto.
      * intros (pre & y & post & Heq & Hpre & Hy). destruct pre as [|p pre].
        -- simpl in Heq. injection Heq as <- <-. congruence.
        -- simpl in Heq. injection Heq as <- ->. exists pre, y, post.
           split_and!; [done | | done].
           intros z Hz. apply Hpre. by (apply elem_of_cons; auto).
    + split.
      * intros [= ->]. exists [], x, xs. split_and!; [done | | done].
        intros y Hy. inversion Hy.
      * intros (pre & y & post & Heq & Hpre & Hy). destruct pre as [|p pre].
        -- simpl in Heq. injection Heq as <- <-. congruence.
        -- simpl in Heq. injection Heq as <- ->.
           rewrite (Hpre x) in Hx by (apply elem_of_cons; auto). done.
Qed.

(** ** The frame's columns *)

Lemma assoc_Some_elem_of {A} (k : string) (l : list (string * A)) a :
  assoc k l = Some a → (k, a) ∈ l.
Proof.
  induction l as [|[k' a'] l IH]; simpl; [done|].
  case_decide as Hk.
  - intros [= ->]. subst. apply elem_of_cons; auto.
  - intros H. apply elem_of_cons; auto.
Qed.

Lemma assoc_is_Some {A} (k : string) (l : list (string * A)) :
  is_Some (assoc k l) ↔ k ∈ l.*1.
Proof.
  induction l as [|[k' a'] l IH]; simpl.
  - rewrite elem_of_nil. split; [by intros [? ?]|done].
  - rewrite elem_of_cons. case_decide as Hk.
    + split; [auto|eauto].
    + rewrite IH. split; [auto|]. intros [->|?]; done.
Qed.

Lemma column_dtype_is_Some S k : is_Some (column_dtype S k) ↔ k ∈ df_columns S.
Proof. apply assoc_is_Some. Qed.

Lemma filter_label_nil {A} (k : string) (l : list (string * A)) :
  k ∉ l.*1 → filter (λ c : string * A, c.1 = k) l = [].
Proof.
  induction l as [|[k' a] l IH]; simpl; [done|].
  intros Hk. apply not_elem_of_cons in Hk as [Hne Hk].
  rewrite filter_cons_False by (simpl; congruence). by apply IH.
Qed.

(** In a list with distinct keys, at most one entry carries a key: the one
    [assoc] finds. *)
Lemma filter_label_distinct {A} (k : string) (l : list (string * A)) :
  NoDup l.*1 →
  filter (λ c : string * A, c.1 = k) l =
  match assoc k l with Some a => [(k, a)] | None => [] end.
Proof.
  induction l as [|[k' a] l IH]; simpl; [done|].
  intros Hnd. apply NoDup_cons in Hnd as [Hk' Hnd]. case_decide as Hk.
  - subst k'. rewrite filter_cons_True by done. by rewrite filter_label_nil.
  - rewrite filter_cons_False by done. by apply IH.
Qed.

(** A key that two entries carry is found at least twice. *)
Lemma filter_label_two {A} (k : string) (l before between behind : list (string * A))
    (a1 a2 : A) :
  l = before ++ (k, a1) :: between ++ (k, a2) :: behind →
  ∃ c1 c2 rest, filter (λ c : string * A, c.1 = k) l = c1 :: c2 :: rest.
Proof.
  intros ->.
  rewrite filter_app, filter_cons_True by done.
  rewrite filter_app, filter_cons_True by done.
  destruct (filter (λ c : string * A, c.1 = k) before) as [|c0 [|c1 rest]]; simpl.
  - destruct (filter (λ c : string * A, c.1 = k) between) as [|c1 rest]; simpl; eauto.
  - eauto.
  - eauto.
Qed.

(** On a frame with distinct labels, [df[column].dtype] is the element type
    of the column, and [KeyError] without one. *)
Lemma df_getitem_dtype_distinct S k :
  NoDup (df_columns S) →
  df_getitem_dtype S k =
  match column_dtype S k with
  | Some d => Returned d
  | None => Raised (KeyError, [FRepr k])
  end.
Proof.
  intros Hnd. unfold df_getitem_dtype, column_dtype.
  rewrite filter_label_distinct by done. by destruct (assoc k (df_cols S)).
Qed.

(** Whatever the labels, an element type that [df[column].dtype] gives is
    that of a column of the frame with this label. *)
Lemma df_getitem_dtype_Returned S k v :
  df_getitem_dtype S k = Returned v → (k, v) ∈ df_cols S.
Proof.
  unfold df_getitem_dtype.
  destruct (filter _ (df_cols S)) as [|[k' v'] [|c' rest]] eqn:Hfilter; [done| |].
  - intros [= <-].
    assert ((k', v') ∈ filter (λ c : string * dtype, c.1 = k) (df_cols S)) as Hin
      by (rewrite Hfilter; apply elem_of_cons; auto).
    apply list_elem_of_filter in Hin as [Hk Hin]. simpl in Hk. by subst k'.
  - by case_decide.
Qed.

Lemma assoc_NoDup_elem_of {A} (k : string) (l : list (string * A)) a :
  NoDup l.*1 → (k, a) ∈ l → assoc k l = Some a.
Proof.
  induction l as [|[k' a'] l IH]; simpl.
  - intros _ H. by apply elem_of_nil in H.
  - intros Hnd H. apply NoDup_cons in Hnd as [Hk' Hnd].
    apply elem_of_cons in H as [[= <- <-]|H].
    + by rewrite decide_True.
    + rewrite decide_False; [by apply IH|].
      intros ->. apply Hk'. apply list_elem_of_fmap. by exists (k, a).
Qed.

(** ** The column checker *)

(** The strict check is the non-strict check followed by the comparison of
    the two lengths. *)
Lemma check_columns_strict_unfold S C :
  _check_columns S C true =
  _check_columns S C false ≫= λ _,
    assert_ (bool_decide (length (df_columns S) = spec_len C)) (unexpected_columns_msg S C).
Proof.
  unfold _check_columns.
  destruct C as [l|d]; simpl.
  - destruct (for_each l _) as [[]|e]; reflexivity.
  - destruct (for_each d _) as [[]|e]; reflexivity.
Qed.

Lemma check_columns_list_unfold S L :
  _check_columns S (ColList L) false =
  for_each L (λ column,
    assert_ (bool_decide (column ∈ df_columns S)) (missing_column_msg column S)).
Proof.
  unfold _check_columns. simpl. destruct (for_each L _) as [[]|e]; reflexivity.
Qed.

Lemma check_columns_dict_unfold S D :
  _check_columns S (ColDict D) false = for_each D (check_item S).
Proof.
  unfold _check_columns. simpl.
  assert (for_each D (λ '(column, dtype),
      assert_ (bool_decide (column ∈ df_columns S)) (missing_column_msg column S) ≫= λ _,
      df_getitem_dtype S column ≫= λ actual,
      assert_ (bool_decide (actual = dtype)) (wrong_dtype_msg column actual dtype))
    = for_each D (check_item S)) as ->.
  { induction D as [|[k v] D IH]; simpl; [done|]. by rewrite IH. }
  destruct (for_each D _) as [[]|e]; reflexivity.
Qed.

(** An item passes exactly when [df[column].dtype] gives its element
    type. *)
Lemma check_item_passes S k v :
  check_item S (k, v) = Returned tt ↔ df_getitem_dtype S k = Returned v.
Proof.
  unfold check_item. simpl. split.
  - destruct (bool_decide (k ∈ df_columns S)); simpl; [|done].
    destruct (df_getitem_dtype S k) as [a|e]; simpl; [|done].
    destruct (decide (a = v)) as [->|Hne]; [done|].
    by rewrite bool_decide_eq_false_2.
  - intros Hv. rewrite Hv. simpl.
    rewrite (bool_decide_eq_true_2 (k ∈ df_columns S)).
    + simpl. by rewrite bool_decide_eq_true_2.
    + apply df_getitem_dtype_Returned in Hv.
      apply list_elem_of_fmap. by exists (k, v).
Qed.

Lemma check_item_Returned S k v :
  NoDup (df_columns S) →
  (check_item S (k, v) = Returned tt ↔ k ∈ df_columns S ∧ column_dtype S k = Some v).
Proof.
  intros Hnd. unfold check_item. rewrite df_getitem_dtype_distinct by done. simpl.
  destruct (decide (k ∈ df_columns S)) as [Hin|Hout].
  - rewrite bool_decide_eq_true_2 by done. simpl.
    destruct (column_dtype S k) as [a|] eqn:Ha; simpl.
    + destruct (decide (a = v)) as [->|Hne].
      * rewrite bool_decide_eq_true_2 by done. simpl. by split.
      * rewrite bool_decide_eq_false_2 by done. simpl.
        split; [done|]. intros [_ [= ?]]. done.
    + split; [done|]. intros [_ ?]. done.
  - rewrite bool_decide_eq_false_2 by done. simpl.
    split; [done|]. intros [? _]. done.
Qed.

Lemma check_item_Raised S k v e :
  NoDup (df_columns S) →
  check_item S (k, v) = Raised e →
  ((k ∉ df_columns S) ∧ e = (AssertionError, missing_column_msg k S))
  ∨ (∃ actual, column_dtype S k = Some actual ∧ actual ≠ v
       ∧ e = (AssertionError, wrong_dtype_msg k actual v)).
Proof.
  intros Hnd. unfold check_item. rewrite df_getitem_dtype_distinct by done. simpl.
  destruct (decide (k ∈ df_columns S)) as [Hin|Hout].
  - rewrite bool_decide_eq_true_2 by done. simpl.
    destruct (column_dtype S k) as [a|] eqn:Ha; simpl.
    + destruct (decide (a = v)) as [->|Hne].
      * rewrite bool_decide_eq_true_2 by done. done.
      * rewrite bool_decide_eq_false_2 by done. simpl. intros [= <-]. right. eauto.
    + apply column_dtype_is_Some in Hin as [a Ha']. congruence.
  - rewrite bool_decide_eq_false_2 by done. simpl. intros [= <-]. by left.
Qed.

(** C1. The non-strict check of a list-form specification [L] against a
    frame [S] succeeds exactly when every name of [L] is a column of [S].
    When some name is absent, the check raises an [AssertionError] whose
    message names an absent column of [L] and lists the columns of [S]. *)
Theorem check_columns_list_spec (S : DataFrame) (L : list string) :
  (_check_columns S (ColList L) false = Returned tt ↔ ∀ c, c ∈ L → c ∈ df_columns S)
  ∧ ((∃ c, c ∈ L ∧ c ∉ df_columns S) →
     ∃ c, c ∈ L ∧ (c ∉ df_columns S) ∧
       _check_columns S (ColList L) false =
       Raised (AssertionError,
               [Lit "Column "; FStr c; Lit " missing from DataFrame. Got ";
                Lit "columns: "; FList (df_columns S)])).
Proof.
  rewrite check_columns_list_unfold.
  assert (for_each L (λ column,
            assert_ (bool_decide (column ∈ df_columns S)) (missing_column_msg column S))
          = Returned tt ↔ ∀ c, c ∈ L → c ∈ df_columns S) as Hiff.
  { rewrite for_each_Returned. apply forall_proper; intros c.
    by rewrite assert_Returned, bool_decide_eq_true. }
  split; [exact Hiff|].
  intros (c & HcL & Hc).
  destruct (outcome_unit_cases (for_each L (λ column,
      assert_ (bool_decide (column ∈ df_columns S)) (missing_column_msg column S))))
    as [Hok|[e He]].
  - destruct Hc. apply Hiff; done.
  - pose proof He as He'.
    apply for_each_Raised in He' as (pre & x & post & -> & _ & Hx).
    apply assert_Raised in Hx as [Hx ->]. apply bool_decide_eq_false in Hx.
    exists x. split_and!; [ | done | exact He].
    apply elem_of_app; right; apply elem_of_cons; auto.
Qed.

Lemma check_columns_list_spec_witness :
  _check_columns frame_ab (ColList ["a"; "b"]) false = Returned tt
  ∧ ∃ c, c ∈ ["a"; "b"; "c"] ∧ (c ∉ df_columns frame_ab) ∧
      _check_columns frame_ab (ColList ["a"; "b"; "c"]) false =
      Raised (AssertionError,
              [Lit "Column "; FStr c; Lit " missing from DataFrame. Got ";
               Lit "columns: "; FList ["a"; "b"]]).
Proof.
  split.
  - apply (proj1 (check_columns_list_spec frame_ab ["a"; "b"])).
    intros c Hc. exact Hc.
  - apply (proj2 (check_columns_list_spec frame_ab ["a"; "b"; "c"])).
    exists "c". split; by apply (bool_decide_unpack _).
Defined.

(** C2. The dict-form check does not accept every frame whose columns
    have the declared element types, nor does it report every type
    mismatch: when two columns of the frame carry the label of a key (other
    than ["dtype"]), [df[column]] is a frame, and the check raises
    [AttributeError] at that key, whatever the element types of the two
    columns and the declared type are, and whatever [strict] is. *)
Theorem check_columns_dict_repeated_label (S : DataFrame) (k : string) (v d1 d2 : dtype)
    (before between behind : list (string * dtype)) (post : list (string * dtype))
    (strict : bool) :
  df_cols S = before ++ (k, d1) :: between ++ (k, d2) :: behind → k ≠ "dtype" →
  _check_columns S (ColDict ((k, v) :: post)) strict =
  Raised (AttributeError, [Lit "'DataFrame' object has no attribute 'dtype'"]).
Proof.
  intros Hcols Hk.
  assert (check_item S (k, v) =
          Raised (AttributeError, [Lit "'DataFrame' object has no attribute 'dtype'"]))
    as Hitem.
  { unfold check_item. simpl.
    rewrite bool_decide_eq_true_2.
    - simpl. unfold df_getitem_dtype.
      destruct (filter_label_two k (df_cols S) before between behind d1 d2 Hcols)
        as (c1 & c2 & rest & ->).
      simpl. by rewrite decide_False.
    - unfold df_columns. rewrite Hcols, fmap_app. apply elem_of_app. right.
      apply elem_of_cons. by left. }
  assert (_check_columns S (ColDict ((k, v) :: post)) false =
          Raised (AttributeError, [Lit "'DataFrame' object has no attribute 'dtype'"]))
    as Hloose.
  { rewrite check_columns_dict_unfold. simpl. by rewrite Hitem. }
  destruct strict; [|done]. by rewrite check_columns_strict_unfold, Hloose.
Qed.

Lemma check_columns_dict_repeated_label_witness :
  _check_columns (Frame [("a", int64); ("a", int64)]) (ColDict [("a", int64)]) false =
    Raised (AttributeError, [Lit "'DataFrame' object has no attribute 'dtype'"])
  ∧ _check_columns (Frame [("a", float64); ("b", int64); ("a", float64)])
      (ColDict [("a", int64)]) false =
    Raised (AttributeError, [Lit "'DataFrame' object has no attribute 'dtype'"]).
Proof.
  split.
  - apply (check_columns_dict_repeated_label (Frame [("a", int64); ("a", int64)])
             "a" int64 int64 int64 [] [] [] [] false); [reflexivity|discriminate].
  - apply (check_columns_dict_repeated_label
             (Frame [("a", float64); ("b", int64); ("a", float64)])
             "a" int64 float64 float64 [] [("b", int64)] [] [] false);
      [reflexivity|discriminate].
Defined.

(** On a frame [S] with distinct labels, the non-strict check of a
    dict-form specification [D] succeeds exactly when every key of [D] is a
    column of [S] whose element type is the one [D] declares for it. A
    failing check raises an [AssertionError]: either for a key that is no
    column of [S], or for a key whose column has another element type, and
    then the message names the column, the actual type and the expected
    type. When all keys are columns and some type differs, it is the
    latter. *)
Theorem check_columns_dict_spec (S : DataFrame) (D : list (string * dtype)) :
  NoDup (df_columns S) →
  (_check_columns S (ColDict D) false = Returned tt ↔
     ∀ k v, (k, v) ∈ D → k ∈ df_columns S ∧ column_dtype S k = Some v)
  ∧ (∀ e, _check_columns S (ColDict D) false = Raised e →
       (∃ k, k ∈ D.*1 ∧ (k ∉ df_columns S) ∧
          e = (AssertionError,
               [Lit "Column "; FStr k; Lit " missing from DataFrame. Got ";
                Lit "columns: "; FList (df_columns S)]))
       ∨ (∃ k v actual, (k, v) ∈ D ∧ column_dtype S k = Some actual ∧ actual ≠ v ∧
            e = (AssertionError,
                 [Lit "Column "; FStr k; Lit " has wrong dtype. Was "; FDtype actual;
                  Lit ", expected "; FDtype v])))
  ∧ ((∀ k, k ∈ D.*1 → k ∈ df_columns S) →
     (∃ k v, (k, v) ∈ D ∧ column_dtype S k ≠ Some v) →
     ∃ k v actual, (k, v) ∈ D ∧ column_dtype S k = Some actual ∧ actual ≠ v ∧
       _check_columns S (ColDict D) false =
       Raised (AssertionError,
               [Lit "Column "; FStr k; Lit " has wrong dtype. Was "; FDtype actual;
                Lit ", expected "; FDtype v])).
Proof.
  intros Hnd. rewrite check_columns_dict_unfold.
  assert (for_each D (check_item S) = Returned tt ↔
          ∀ k v, (k, v) ∈ D → k ∈ df_columns S ∧ column_dtype S k = Some v) as Hiff.
  { rewrite for_each_Returned. split.
    - intros H k v Hkv. apply (check_item_Returned S k v Hnd), H, Hkv.
    - intros H [k v] Hkv. apply (check_item_Returned S k v Hnd), H, Hkv. }
  assert (∀ e, for_each D (check_item S) = Raised e →
       (∃ k, k ∈ D.*1 ∧ (k ∉ df_columns S) ∧ e = (AssertionError, missing_column_msg k S))
       ∨ (∃ k v actual, (k, v) ∈ D ∧ column_dtype S k = Some actual ∧ actual ≠ v ∧
            e = (AssertionError, wrong_dtype_msg k actual v))) as Hfail.
  { intros e He.
    apply for_each_Raised in He as (pre & [k v] & post & -> & _ & Hx).
    assert ((k, v) ∈ pre ++ (k, v) :: post) as Hin
      by (apply elem_of_app; right; apply elem_of_cons; auto).
    apply (check_item_Raised S k v e Hnd) in Hx as [[Hout ->]|(a & Ha & Hne & ->)].
    - left. exists k. split_and!; [|done|done].
      apply list_elem_of_fmap. by exists (k, v).
    - right. by exists k, v, a. }
  split_and!; [exact Hiff | exact Hfail |].
  intros Hall (k & v & Hkv & Hne).
  destruct (outcome_unit_cases (for_each D (check_item S))) as [Hok|[e He]].
  - destruct Hne. by apply Hiff.
  - destruct (Hfail e He) as [(k' & Hk' & Hout & _)|(k' & v' & a & ? & ? & ? & ->)].
    + destruct Hout. by apply Hall.
    + by exists k', v', a.
Qed.

Lemma check_columns_dict_spec_witness :
  NoDup (df_columns frame_ab)
  ∧ _check_columns frame_ab (ColDict [("b", float64); ("a", int64)]) false = Returned tt
  ∧ ∃ k v actual, (k, v) ∈ [("a", int64)] ∧ column_dtype frame_a_float k = Some actual ∧
      actual ≠ v ∧
      _check_columns frame_a_float (ColDict [("a", int64)]) false =
      Raised (AssertionError,
              [Lit "Column "; FStr k; Lit " has wrong dtype. Was "; FDtype actual;
               Lit ", expected "; FDtype v]).
Proof.
  assert (NoDup (df_columns frame_ab)) as Hab by (by apply (bool_decide_unpack _)).
  assert (NoDup (df_columns frame_a_float)) as Ha by (by apply (bool_decide_unpack _)).
  split_and!; [exact Hab | |].
  - apply (proj1 (check_columns_dict_spec frame_ab [("b", float64); ("a", int64)] Hab)).
    intros k v Hkv.
    apply elem_of_cons in Hkv as [[= -> ->]|Hkv];
      [split; [by apply (bool_decide_unpack _)|done]|].
    apply elem_of_cons in Hkv as [[= -> ->]|Hkv];
      [split; [by apply (bool_decide_unpack _)|done]|].
    by apply elem_of_nil in Hkv.
  - apply (proj2 (proj2 (check_columns_dict_spec frame_a_float [("a", int64)] Ha))).
    + intros k Hk. exact Hk.
    + exists "a", int64. split; [by apply (bool_decide_unpack _)|discriminate].
Defined.

(** C3. The strict check succeeds exactly when the non-strict check
    succeeds and the frame has as many columns as the specification has
    entries. When the non-strict check succeeds and the two counts differ,
    the strict check raises an [AssertionError] whose message lists the
    names in the set of the frame's columns minus the set of the
    specification's names. A strict check fails in no other way than this
    or as the non-strict check does, whose exception it then raises. *)
Theorem check_columns_strict_spec (S : DataFrame) (C : ColumnsDef) :
  (_check_columns S C true = Returned tt ↔
     _check_columns S C false = Returned tt ∧ length (df_columns S) = spec_len C)
  ∧ (_check_columns S C false = Returned tt → length (df_columns S) ≠ spec_len C →
     _check_columns S C true =
     Raised (AssertionError,
             [Lit "DataFrame contained unexpected column(s): ";
              FJoin ", " (list_to_set (df_columns S) ∖ list_to_set (spec_names C))]))
  ∧ (∀ e, _check_columns S C true = Raised e →
       _check_columns S C false = Raised e
       ∨ (_check_columns S C false = Returned tt ∧ length (df_columns S) ≠ spec_len C ∧
          e = (AssertionError,
               [Lit "DataFrame contained unexpected column(s): ";
                FJoin ", " (list_to_set (df_columns S) ∖ list_to_set (spec_names C))]))).
Proof.
  rewrite check_columns_strict_unfold.
  destruct (_check_columns S C false) as [[]|e]; simpl.
  - split_and!.
    + rewrite assert_Returned, bool_decide_eq_true. by split; [|intros [_ ?]].
    + intros _ Hne. by rewrite bool_decide_eq_false_2.
    + intros e He. right. apply assert_Raised in He as [Hne ->].
      apply bool_decide_eq_false in Hne. done.
  - split_and!.
    + split; [done|]. by intros [? _].
    + done.
    + intros e' He. by left.
Qed.

Lemma check_columns_strict_spec_witness :
  _check_columns frame_ab (ColList ["a"; "b"]) true = Returned tt
  ∧ _check_columns frame_ab_extra (ColList ["a"; "b"]) true =
    Raised (AssertionError,
            [Lit "DataFrame contained unexpected column(s): ";
             FJoin ", " (list_to_set ["a"; "b"; "extra"] ∖ list_to_set ["a"; "b"])]).
Proof.
  split.
  - apply (proj1 (check_columns_strict_spec frame_ab (ColList ["a"; "b"]))).
    split; reflexivity.
  - apply (proj1 (proj2 (check_columns_strict_spec frame_ab_extra (ColList ["a"; "b"])))).
    + reflexivity.
    + simpl. lia.
Defined.

(** The scenarios of the specification. *)
Example scenario_missing :
  _check_columns frame_ab (ColList ["a"; "b"; "c"]) false =
  Raised (AssertionError,
          [Lit "Column "; FStr "c"; Lit " missing from DataFrame. Got ";
           Lit "columns: "; FList ["a"; "b"]]).
Proof. reflexivity. Qed.

Example scenario_strict_ok :
  _check_columns frame_ab (ColList ["a"; "b"]) true = Returned tt.
Proof. reflexivity. Qed.

Example scenario_extra :
  _check_columns frame_ab_extra (ColList ["a"; "b"]) true =
  Raised (AssertionError,
          [Lit "DataFrame contained unexpected column(s): "; FJoin ", " {["extra"]}]).
Proof. vm_compute. reflexivity. Qed.

Example scenario_dtype :
  _check_columns frame_a_float (ColDict [("a", int64)]) false =
  Raised (AssertionError,
          [Lit "Column "; FStr "a"; Lit " has wrong dtype. Was "; FDtype float64;
           Lit ", expected "; FDtype int64]).
Proof. reflexivity. Qed.

(** ** The parameter locator *)







(** ** The monad of the wrappers *)

Lemma py_bind_lift_Returned {A B} (o : outcome A) (a : A) (k : A → py B) w :
  o = Returned a → (lift o ≫= k) w = k a w.
Proof. by intros ->. Qed.

Lemma py_bind_lift_Raised {A B} (o : outcome A) e (k : A → py B) w :
  o = Raised e → (lift o ≫= k) w = (Raised e, w).
Proof. by intros ->. Qed.

Lemma py_bind_Returned {A B} (m : py A) (a : A) (k : A → py B) w w' :
  m w = (Returned a, w') → (m ≫= k) w = k a w'.
Proof. unfold mbind, py_bind. by intros ->. Qed.

Lemma py_bind_Raised {A B} (m : py A) e (k : A → py B) w w' :
  m w = (Raised e, w') → (m ≫= k) w = (Raised e, w').
Proof. unfold mbind, py_bind. by intros ->. Qed.

Lemma assert_dataframe_other v msg :
  is_dataframe v = false → assert_dataframe v msg = Raised (AssertionError, msg).
Proof. by destruct v. Qed.

Lemma check_if_given_falsy frame columns strict :
  spec_truth columns = false → check_if_given frame columns strict = Returned tt.
Proof. unfold check_if_given. by intros ->. Qed.

(** ** The input guard *)

(** The type test of the input guard: a located value that is no frame
    stops the call before [func]. *)
Lemma df_in_not_frame name columns strict func args kwargs w v :
  call__get_parameter func name args kwargs = Returned v →
  is_dataframe v = false →
  fn_call (df_in name columns strict func) args kwargs w =
  (Raised (AssertionError, wrong_parameter_type_msg v), w).
Proof.
  intros Hloc Hv. simpl.
  rewrite (py_bind_lift_Returned _ v) by done.
  by rewrite (py_bind_lift_Raised _ (AssertionError, wrong_parameter_type_msg v))
    by (by apply assert_dataframe_other).
Qed.

(** C6. When the located argument is not a frame, the guarded call raises
    the [AssertionError] that names the argument's type and leaves the
    world as it found it, whatever [func] is: the body of [func] did not
    run. When the located argument is a frame and the column check (if a
    specification was given) passes, the guarded call is the call of [func]
    on the same arguments: same result, same effects. *)
Theorem df_in_guard (name : option string) (columns : option ColumnsDef) (strict : bool)
    (func : Callable) (args : list value) (kwargs : list (string * value)) (w : world) :
  (∀ v, call__get_parameter func name args kwargs = Returned v →
        is_dataframe v = false →
        fn_call (df_in name columns strict func) args kwargs w =
        (Raised (AssertionError,
                 [Lit "Wrong parameter type. Expected Pandas DataFrame, got ";
                  FStr (type_name v); Lit " instead."]), w))
  ∧ (∀ frame, call__get_parameter func name args kwargs = Returned (VDataFrame frame) →
        check_if_given frame columns strict = Returned tt →
        fn_call (df_in name columns strict func) args kwargs w = fn_call func args kwargs w).
Proof.
  split.
  - intros v Hloc Hv. by apply df_in_not_frame.
  - intros frame Hloc Hcheck. simpl.
    rewrite (py_bind_lift_Returned _ (VDataFrame frame)) by done.
    rewrite (py_bind_lift_Returned _ frame) by done.
    by rewrite (py_bind_lift_Returned _ tt).
Qed.

Lemma df_in_guard_witness :
  fn_call (df_in None (Some (ColList ["a"])) true probe) [VInt 3] [] w0 =
    (Raised (AssertionError,
             [Lit "Wrong parameter type. Expected Pandas DataFrame, got ";
              FStr "int"; Lit " instead."]), w0)
  ∧ fn_call (df_in None (Some (ColList ["a"])) true probe) [VDataFrame frame_a] [] w0 =
    (Returned (VDataFrame frame_a), World [] [VStr "probe ran"]).
Proof.
  split.
  - apply (proj1 (df_in_guard None (Some (ColList ["a"])) true probe [VInt 3] [] w0)
             (VInt 3)); reflexivity.
  - rewrite (proj2 (df_in_guard None (Some (ColList ["a"])) true probe
                      [VDataFrame frame_a] [] w0) frame_a); reflexivity.
Defined.

(** ** The output guard *)

(** C7. The output guard calls [func] first. An exception of [func]
    leaves the guarded call as it is, with the world as [func] left it.
    When [func] returns, the guard validates the returned value in the
    world [func] left, without changing it; a returned frame that passes
    the column check is returned as it is. *)
Theorem df_out_guard (columns : option ColumnsDef) (strict : bool) (func : Callable)
    (args : list value) (kwargs : list (string * value)) (w : world) :
  (∀ e w', fn_call func args kwargs w = (Raised e, w') →
      fn_call (df_out columns strict func) args kwargs w = (Raised e, w'))
  ∧ (∀ frame w', fn_call func args kwargs w = (Returned (VDataFrame frame), w') →
      check_if_given frame columns strict = Returned tt →
      fn_call (df_out columns strict func) args kwargs w = (Returned (VDataFrame frame), w'))
  ∧ (∀ result w', fn_call func args kwargs w = (Returned result, w') →
      fn_call (df_out columns strict func) args kwargs w =
      (assert_dataframe result (wrong_return_type_msg result) ≫= λ frame,
       check_if_given frame columns strict ≫= λ _, Returned result, w')).
Proof.
  split_and!.
  - intros e w' Hf. simpl. by apply py_bind_Raised.
  - intros frame w' Hf Hcheck. simpl.
    rewrite (py_bind_Returned _ (VDataFrame frame) _ w w') by done.
    rewrite (py_bind_lift_Returned _ frame) by done.
    by rewrite (py_bind_lift_Returned _ tt).
  - intros result w' Hf. simpl.
    rewrite (py_bind_Returned _ result _ w w') by done.
    destruct (assert_dataframe result _) as [frame|e] eqn:Hframe; simpl.
    + rewrite (py_bind_lift_Returned _ frame) by done.
      destruct (check_if_given frame columns strict) as [[]|e] eqn:Hcheck; simpl.
      * by rewrite (py_bind_lift_Returned _ tt).
      * by rewrite (py_bind_lift_Raised _ e).
    + by rewrite (py_bind_lift_Raised _ e).
Qed.

Lemma df_out_guard_witness :
  fn_call (df_out (Some (ColList ["a"])) true failing) [VDataFrame frame_a] [] w0 =
    (Raised (UserError "RuntimeError", [Lit "boom"]), World [] [VStr "failing ran"])
  ∧ fn_call (df_out (Some (ColList ["a"])) true probe) [VDataFrame frame_a] [] w0 =
    (Returned (VDataFrame frame_a), World [] [VStr "probe ran"]).
Proof.
  split.
  - apply (proj1 (df_out_guard (Some (ColList ["a"])) true failing
                    [VDataFrame frame_a] [] w0)).
    reflexivity.
  - apply (proj1 (proj2 (df_out_guard (Some (ColList ["a"])) true probe
                           [VDataFrame frame_a] [] w0)) frame_a); reflexivity.
Defined.

(** ** The shape logger *)

Lemma log_input_returns level func_name df include_dtypes w :
  _log_input level func_name df include_dtypes w =
  (Returned tt, (_log_input level func_name df include_dtypes w).2).
Proof. by destruct df. Qed.

Lemma log_output_returns level func_name df include_dtypes w :
  _log_output level func_name df include_dtypes w =
  (Returned tt, (_log_output level func_name df include_dtypes w).2).
Proof. by destruct df. Qed.

(** C8. A call of a function decorated by the shape logger never hands a
    value other than [None] to its caller. When the wrapper reaches [func]
    and [func] returns [result], the decorated call logs [result] and
    returns [None]: [result] is dropped. *)
Theorem df_log_discards (level : Z) (include_dtypes : bool) (func : Callable)
    (args : list value) (kwargs : list (string * value)) (w : world) :
  (∀ r w', fn_call (df_log level include_dtypes func) args kwargs w = (Returned r, w') →
           r = VNone)
  ∧ (∀ parameter result w2,
       call__get_parameter func None args kwargs = Returned parameter →
       fn_call func args kwargs
         (_log_input level (fn_name func) parameter include_dtypes w).2
         = (Returned result, w2) →
       fn_call (df_log level include_dtypes func) args kwargs w =
       (Returned VNone, (_log_output level (fn_name func) result include_dtypes w2).2)).
Proof.
  split.
  - intros r w'. simpl.
    destruct (call__get_parameter func None args kwargs) as [p|e] eqn:Hloc.
    + rewrite (py_bind_lift_Returned _ p) by done.
      rewrite (py_bind_Returned (_log_input level (fn_name func) p include_dtypes) tt _ w _
               (log_input_returns level (fn_name func) p include_dtypes w)).
      destruct (fn_call func args kwargs
                  (_log_input level (fn_name func) p include_dtypes w).2)
        as [[result|e] w2] eqn:Hf.
      * rewrite (py_bind_Returned _ result _ _ w2) by done.
        rewrite (py_bind_Returned (_log_output level (fn_name func) result include_dtypes)
                 tt _ w2 _
                 (log_output_returns level (fn_name func) result include_dtypes w2)).
        by intros [= <- _].
      * by rewrite (py_bind_Raised _ e _ _ w2).
    + by rewrite (py_bind_lift_Raised _ e).
  - intros p result w2 Hloc Hf. simpl.
    rewrite (py_bind_lift_Returned _ p) by done.
    rewrite (py_bind_Returned (_log_input level (fn_name func) p include_dtypes) tt _ w _
               (log_input_returns level (fn_name func) p include_dtypes w)).
    rewrite (py_bind_Returned _ result _ _ w2) by done.
    by rewrite (py_bind_Returned (_log_output level (fn_name func) result include_dtypes)
                 tt _ w2 _
                 (log_output_returns level (fn_name func) result include_dtypes w2)).
Qed.

Lemma df_log_discards_witness :
  fn_call (df_log 10 false probe) [VDataFrame frame_a] [] w0 =
  (Returned VNone,
   World [LogRecord 10 [Lit "Function "; FStr "probe";
                        Lit " parameters contained a DataFrame: ";
                        Lit "columns: "; FList ["a"]];
          LogRecord 10 [Lit "Function "; FStr "probe";
                        Lit " returned a DataFrame: ";
                        Lit "columns: "; FList ["a"]]]
         [VStr "probe ran"]).
Proof.
  rewrite (proj2 (df_log_discards 10 false probe [VDataFrame frame_a] [] w0)
             (VDataFrame frame_a) (VDataFrame frame_a)
             (World [LogRecord 10 [Lit "Function "; FStr "probe";
                                   Lit " parameters contained a DataFrame: ";
                                   Lit "columns: "; FList ["a"]]]
                    [VStr "probe ran"]));
    reflexivity.
Defined.

(** ** Empty specifications *)

Lemma spec_len_0 (C : ColumnsDef) :
  spec_len C = 0 → C = ColList [] ∨ C = ColDict [].
Proof.
  destruct C as [[|c l]|[|kv d]]; simpl; intros H; try discriminate H; auto.
Qed.

(** C9. The checker called on an empty specification with [strict] unset
    checks nothing and succeeds. With [strict] set it still compares the
    number of columns with zero, so it succeeds only for a frame without
    columns. The guards do not call the checker for an empty or absent
    specification, whatever [strict] is: the input guard is then the
    location and type test followed by the call of [func], the output guard
    the call of [func] followed by the type test. *)
Theorem empty_spec_spec :
  (∀ S C, spec_len C = 0 → _check_columns S C false = Returned tt)
  ∧ (∀ S C, spec_len C = 0 →
       (_check_columns S C true = Returned tt ↔ df_columns S = []))
  ∧ (∀ name columns strict func args kwargs w, spec_truth columns = false →
       fn_call (df_in name columns strict func) args kwargs w =
       (lift (call__get_parameter func name args kwargs) ≫= λ df,
        lift (assert_dataframe df (wrong_parameter_type_msg df)) ≫= λ _,
        fn_call func args kwargs) w)
  ∧ (∀ columns strict func args kwargs w, spec_truth columns = false →
       fn_call (df_out columns strict func) args kwargs w =
       (fn_call func args kwargs ≫= λ result,
        lift (assert_dataframe result (wrong_return_type_msg result)) ≫= λ _,
        mret result) w).
Proof.
  split_and!.
  - intros S C HC. by destruct (spec_len_0 C HC) as [-> | ->].
  - intros S C HC. rewrite check_columns_strict_unfold.
    assert (_check_columns S C false = Returned tt) as ->
      by (by destruct (spec_len_0 C HC) as [-> | ->]).
    simpl. rewrite assert_Returned, bool_decide_eq_true, HC.
    split; [apply nil_length_inv | by intros ->].
  - intros name columns strict func args kwargs w Hc. simpl.
    unfold mbind, py_bind, lift.
    destruct (call__get_parameter func name args kwargs) as [df|e]; [|done].
    destruct (assert_dataframe df _) as [frame|e]; [|done].
    by rewrite check_if_given_falsy.
  - intros columns strict func args kwargs w Hc. simpl.
    unfold mbind, py_bind, lift.
    destruct (fn_call func args kwargs w) as [[result|e] w']; [|done].
    destruct (assert_dataframe result _) as [frame|e]; [|done].
    by rewrite check_if_given_falsy.
Qed.

Lemma empty_spec_spec_witness :
  _check_columns frame_ab (ColDict []) false = Returned tt
  ∧ _check_columns (Frame []) (ColList []) true = Returned tt
  ∧ fn_call (df_in None (Some (ColList [])) true probe) [VDataFrame frame_ab] [] w0 =
    (Returned (VDataFrame frame_ab), World [] [VStr "probe ran"])
  ∧ fn_call (df_out None true probe) [VDataFrame frame_ab] [] w0 =
    (Returned (VDataFrame frame_ab), World [] [VStr "probe ran"]).
Proof.
  destruct empty_spec_spec as (Hloose & Hstrict & Hin & Hout).
  split_and!.
  - by apply Hloose.
  - by apply Hstrict.
  - by rewrite Hin.
  - by rewrite Hout.
Defined.

(** The checker itself, called on an empty list with [strict] set, refuses
    a frame that has a column. *)
Lemma empty_spec_strict_fails :
  _check_columns frame_a (ColList []) true =
  Raised (AssertionError,
          [Lit "DataFrame contained unexpected column(s): "; FJoin ", " {["a"]}]).
Proof. vm_compute. reflexivity. Qed.

(** ** Keywords named like the locator's own parameters *)

Lemma call__get_parameter_no_clash func name args kwargs :
  (∀ k, k ∈ kwargs.*1 → k ≠ "func" ∧ k ≠ "name") →
  call__get_parameter func name args kwargs = _get_parameter func name args kwargs.
Proof.
  intros Hfree. unfold call__get_parameter.
  destruct (filter _ kwargs.*1) as [|k rest] eqn:Hfilter; [done|].
  assert (k ∈ filter (λ k, k ∈ ["func"; "name"]) kwargs.*1) as Hk
    by (rewrite Hfilter; apply elem_of_cons; auto).
  apply list_elem_of_filter in Hk as [Hk Hin].
  destruct (Hfree k Hin) as [Hf Hn].
  apply elem_of_cons in Hk as [->|Hk]; [done|].
  apply elem_of_cons in Hk as [->|Hk]; [done|].
  by apply elem_of_nil in Hk.
Qed.

(** The first keyword of the caller that is spelled like a parameter of
    [_get_parameter]: the keywords before it are spelled otherwise, and it
    heads the list of the clashing keywords. *)
Lemma clashing_keyword (keywords : list string) k :
  k ∈ keywords → k = "func" ∨ k = "name" →
  ∃ before k' behind,
    keywords = before ++ k' :: behind
    ∧ (∀ k0, k0 ∈ before → k0 ≠ "func" ∧ k0 ≠ "name")
    ∧ (k' = "func" ∨ k' = "name")
    ∧ filter (λ k, k ∈ ["func"; "name"]) keywords
      = k' :: filter (λ k, k ∈ ["func"; "name"]) behind.
Proof.
  assert (∀ k0 : string, k0 ∈ ["func"; "name"] ↔ k0 = "func" ∨ k0 = "name") as Hspelled.
  { intros k0. rewrite !elem_of_cons, elem_of_nil. tauto. }
  induction keywords as [|k1 keywords IH]; intros Hin Hk.
  - by apply elem_of_nil in Hin.
  - destruct (decide (k1 ∈ ["func"; "name"])) as [Hk1|Hk1].
    + exists [], k1, keywords. split_and!; [done| |by apply Hspelled|].
      * intros k0 H0. by apply elem_of_nil in H0.
      * by rewrite filter_cons_True.
    + apply elem_of_cons in Hin as [->|Hin]; [by destruct Hk1; apply Hspelled|].
      destruct (IH Hin Hk) as (before & k' & behind & -> & Hbefore & Hk' & Hfilter).
      exists (k1 :: before), k', behind. split_and!; [done| |done|].
      * intros k0 H0. apply elem_of_cons in H0 as [->|H0]; [|by apply Hbefore].
        split; intros ->; apply Hk1, Hspelled; auto.
      * by rewrite filter_cons_False.
Qed.

(** A caller's keyword [func] or [name] makes the locating call raise
    [TypeError], whatever the other arguments are. *)
Lemma call__get_parameter_clash func name args kwargs k :
  k ∈ kwargs.*1 → k = "func" ∨ k = "name" →
  ∃ k', (k' = "func" ∨ k' = "name") ∧
    call__get_parameter func name args kwargs =
    Raised (TypeError,
            [Lit "_get_parameter() got multiple values for argument '"; FStr k'; Lit "'"]).
Proof.
  intros Hin Hk.
  destruct (clashing_keyword kwargs.*1 k Hin Hk)
    as (before & k' & behind & _ & _ & Hk' & Hfilter).
  exists k'. split; [done|]. unfold call__get_parameter. by rewrite Hfilter.
Qed.

(** Both wrappers that locate a parameter stop there: a call of a function
    decorated by [df_in] or [df_log] that has a keyword [func] or [name]
    raises [TypeError] for the first keyword of the call, in the order of
    the call, that is spelled [func] or [name], and [func] does not run. *)
Lemma wrappers_keyword_clash name columns strict level include_dtypes func args kwargs w k :
  k ∈ kwargs.*1 → k = "func" ∨ k = "name" →
  ∃ before k' behind,
    kwargs.*1 = before ++ k' :: behind
    ∧ (∀ k0, k0 ∈ before → k0 ≠ "func" ∧ k0 ≠ "name")
    ∧ (k' = "func" ∨ k' = "name")
    ∧ fn_call (df_in name columns strict func) args kwargs w =
      (Raised (TypeError,
               [Lit "_get_parameter() got multiple values for argument '"; FStr k';
                Lit "'"]), w)
    ∧ fn_call (df_log level include_dtypes func) args kwargs w =
      (Raised (TypeError,
               [Lit "_get_parameter() got multiple values for argument '"; FStr k';
                Lit "'"]), w).
Proof.
  intros Hin Hk.
  destruct (clashing_keyword kwargs.*1 k Hin Hk)
    as (before & k' & behind & Hkeys & Hbefore & Hk' & Hfilter).
  exists before, k', behind. split_and!; [done|done|done| |];
    simpl; unfold mbind, py_bind, lift, call__get_parameter; by rewrite Hfilter.
Qed.

Lemma wrappers_keyword_clash_witness :
  fn_call (df_in (Some "df") None false load) [VDataFrame frame_a]
    [("limit", VInt 3); ("func", VStr "f"); ("name", VStr "n")] w0 =
    (Raised (TypeError,
             [Lit "_get_parameter() got multiple values for argument '"; FStr "func";
              Lit "'"]), w0)
  ∧ fn_call (df_log 10 false load) [VDataFrame frame_a]
    [("limit", VInt 3); ("func", VStr "f"); ("name", VStr "n")] w0 =
    (Raised (TypeError,
             [Lit "_get_parameter() got multiple values for argument '"; FStr "func";
              Lit "'"]), w0).
Proof.
  destruct (wrappers_keyword_clash (Some "df") None false 10 false load [VDataFrame frame_a]
              [("limit", VInt 3); ("func", VStr "f"); ("name", VStr "n")] w0 "name")
    as (before & k' & behind & Hkeys & Hbefore & Hk' & Hin & Hlog).
  - by apply (bool_decide_unpack _).
  - by right.
  - assert (k' = "func") as ->.
    { destruct before as [|k0 [|k1 before]]; simpl in Hkeys.
      - injection Hkeys as <- _. by destruct Hk'.
      - by injection Hkeys as _ <- _.
      - injection Hkeys as _ Hfunc _. subst k1.
        destruct (Hbefore "func") as [Hne _]; [|done].
        apply elem_of_cons. right. apply elem_of_cons. by left. }
    split; [exact Hin | exact Hlog].
Defined.

(** Without a positional argument and without a clashing keyword, the input
    guard with no parameter name raises the type error for [None], whatever
    the keyword arguments hold, and [func] does not run. *)
Lemma df_in_no_positional columns strict func kwargs w :
  (∀ k, k ∈ kwargs.*1 → k ≠ "func" ∧ k ≠ "name") →
  fn_call (df_in None columns strict func) [] kwargs w =
  (Raised (AssertionError,
           [Lit "Wrong parameter type. Expected Pandas DataFrame, got ";
            FStr "NoneType"; Lit " instead."]), w).
Proof.
  intros Hfree.
  apply (df_in_not_frame None columns strict func [] kwargs w VNone); [|done].
  by rewrite call__get_parameter_no_clash.
Qed.

Lemma df_in_no_positional_witness :
  fn_call (df_in None None false load) [] [("df", VDataFrame frame_a)] w0 =
  (Raised (AssertionError,
           [Lit "Wrong parameter type. Expected Pandas DataFrame, got ";
            FStr "NoneType"; Lit " instead."]), w0).
Proof.
  apply df_in_no_positional. intros k Hk.
  apply elem_of_cons in Hk as [->|Hk]; [done|]. by apply elem_of_nil in Hk.
Defined.

(** C10. With no parameter name set and no positional argument, a call
    [f(name=frame)] of a guarded function does not reach the type test:
    the keyword [name] clashes with the parameter [name] of
    [_get_parameter] and the call raises [TypeError], where the type error
    for [None] was due. *)
Theorem df_in_keyword_name_clash (columns : option ColumnsDef) (strict : bool)
    (func : Callable) (frame : DataFrame) (w : world) :
  fn_call (df_in None columns strict func) [] [("name", VDataFrame frame)] w =
    (Raised (TypeError,
             [Lit "_get_parameter() got multiple values for argument '"; FStr "name";
              Lit "'"]), w)
  ∧ fn_call (df_in None columns strict func) [] [("name", VDataFrame frame)] w ≠
    (Raised (AssertionError,
             [Lit "Wrong parameter type. Expected Pandas DataFrame, got ";
              FStr "NoneType"; Lit " instead."]), w).
Proof.
  assert (fn_call (df_in None columns strict func) [] [("name", VDataFrame frame)] w =
    (Raised (TypeError,
             [Lit "_get_parameter() got multiple values for argument '"; FStr "name";
              Lit "'"]), w)) as Hclash by reflexivity.
  split; [exact Hclash|]. rewrite Hclash. discriminate.
Qed.

(** * Further properties of the module *)

(** ** The checker: what it accepts *)

Lemma list_check_Returned S L :
  _check_columns S (ColList L) false = Returned tt ↔ ∀ c, c ∈ L → c ∈ df_columns S.
Proof.
  rewrite check_columns_list_unfold, for_each_Returned.
  apply forall_proper; intros c. by rewrite assert_Returned, bool_decide_eq_true.
Qed.

Lemma dict_check_Returned S D :
  _check_columns S (ColDict D) false = Returned tt ↔
  ∀ k v, (k, v) ∈ D → df_getitem_dtype S k = Returned v.
Proof.
  rewrite check_columns_dict_unfold, for_each_Returned. split.
  - intros H k v Hkv. apply check_item_passes, H, Hkv.
  - intros H [k v] Hkv. apply check_item_passes, H, Hkv.
Qed.

Lemma df_getitem_dtype_Returned_distinct S k v :
  NoDup (df_columns S) →
  (df_getitem_dtype S k = Returned v ↔ column_dtype S k = Some v).
Proof.
  intros Hnd. rewrite df_getitem_dtype_distinct by done.
  destruct (column_dtype S k) as [d|]; split; congruence.
Qed.

Lemma df_getitem_dtype_elem_of S k v :
  NoDup (df_columns S) → (k, v) ∈ df_cols S → df_getitem_dtype S k = Returned v.
Proof.
  intros Hnd Hkv. apply df_getitem_dtype_Returned_distinct; [done|].
  by apply assoc_NoDup_elem_of.
Qed.

Lemma df_getitem_dtype_column S k v :
  df_getitem_dtype S k = Returned v → k ∈ df_columns S.
Proof.
  intros Hv. apply df_getitem_dtype_Returned in Hv.
  apply list_elem_of_fmap. by exists (k, v).
Qed.

Lemma strict_check_Returned S C :
  _check_columns S C true = Returned tt ↔
  _check_columns S C false = Returned tt ∧ length (df_columns S) = spec_len C.
Proof.
  rewrite check_columns_strict_unfold.
  destruct (_check_columns S C false) as [[]|e]; simpl.
  - rewrite assert_Returned, bool_decide_eq_true. by split; [|intros [_ ?]].
  - split; [done|]. by intros [? _].
Qed.

Lemma strict_check_Raised S C e :
  _check_columns S C false = Raised e → _check_columns S C true = Raised e.
Proof. intros H. by rewrite check_columns_strict_unfold, H. Qed.

(** ** The checker: how it fails *)

(** On a frame with distinct labels the checker raises nothing but
    [AssertionError]: the membership assertion stands before [df[column]],
    whose [KeyError] is never met. *)
Theorem check_columns_raises_assertion (S : DataFrame) (C : ColumnsDef) (strict : bool)
    (e : exn) :
  NoDup (df_columns S) →
  _check_columns S C strict = Raised e → e.1 = AssertionError.
Proof.
  intros Hnd.
  assert (∀ e', _check_columns S C false = Raised e' → e'.1 = AssertionError) as Hloose.
  { intros e'. destruct C as [L|D].
    - rewrite check_columns_list_unfold, for_each_Raised.
      intros (pre & x & post & _ & _ & Hx). by apply assert_Raised in Hx as [_ ->].
    - rewrite check_columns_dict_unfold, for_each_Raised.
      intros (pre & [k v] & post & _ & _ & Hx).
      by apply (check_item_Raised S k v e' Hnd) in Hx as [[_ ->]|(a & _ & _ & ->)]. }
  destruct strict; [|apply Hloose].
  rewrite check_columns_strict_unfold.
  destruct (_check_columns S C false) as [[]|e'] eqn:Hc; simpl.
  - intros He. by apply assert_Raised in He as [_ ->].
  - intros [= <-]. by apply Hloose.
Qed.

Lemma check_columns_raises_assertion_witness :
  NoDup (df_columns frame_a_float)
  ∧ _check_columns frame_a_float (ColDict [("a", int64)]) true =
    Raised (AssertionError, wrong_dtype_msg "a" float64 int64)
  ∧ (AssertionError, wrong_dtype_msg "a" float64 int64).1 = AssertionError.
Proof.
  assert (NoDup (df_columns frame_a_float)) as Hnd by (by apply (bool_decide_unpack _)).
  assert (_check_columns frame_a_float (ColDict [("a", int64)]) true =
          Raised (AssertionError, wrong_dtype_msg "a" float64 int64)) as H by reflexivity.
  split_and!; [exact Hnd | exact H |].
  exact (check_columns_raises_assertion frame_a_float (ColDict [("a", int64)]) true _ Hnd H).
Defined.

(** A list-form check stops at the first name that is no column: the
    names before it are not reported, the names after it are not looked
    at, and [strict] plays no part. *)
Theorem check_columns_list_first_absent (S : DataFrame) (pre post : list string)
    (c : string) (strict : bool) :
  (∀ y, y ∈ pre → y ∈ df_columns S) → c ∉ df_columns S →
  _check_columns S (ColList (pre ++ c :: post)) strict =
  Raised (AssertionError,
          [Lit "Column "; FStr c; Lit " missing from DataFrame. Got ";
           Lit "columns: "; FList (df_columns S)]).
Proof.
  intros Hpre Hc.
  assert (_check_columns S (ColList (pre ++ c :: post)) false =
          Raised (AssertionError, missing_column_msg c S)) as Hloose.
  { rewrite check_columns_list_unfold. apply for_each_Raised.
    exists pre, c, post. split_and!; [done| |].
    - intros y Hy. by rewrite assert_Returned, bool_decide_eq_true; apply Hpre.
    - by rewrite bool_decide_eq_false_2. }
  destruct strict; [by apply strict_check_Raised|done].
Qed.

Lemma check_columns_list_first_absent_witness :
  _check_columns frame_ab (ColList ["a"; "x"; "b"; "y"]) true =
  Raised (AssertionError,
          [Lit "Column "; FStr "x"; Lit " missing from DataFrame. Got ";
           Lit "columns: "; FList ["a"; "b"]]).
Proof.
  apply (check_columns_list_first_absent frame_ab ["a"] ["b"; "y"] "x" true).
  - intros y Hy. apply elem_of_cons in Hy as [->|Hy]; [|by apply elem_of_nil in Hy].
    by apply (bool_decide_unpack _).
  - by apply (bool_decide_unpack _).
Defined.

(** On a frame with distinct labels a dict-form check stops at the first
    item it refuses, and tests membership before the element type: a key
    that is no column gives the missing-column error, a key whose column
    has another element type the wrong-dtype error; [strict] plays no
    part. *)
Theorem check_columns_dict_first_refused (S : DataFrame) (pre post : list (string * dtype))
    (k : string) (v : dtype) (strict : bool) :
  NoDup (df_columns S) →
  (∀ k' v', (k', v') ∈ pre → k' ∈ df_columns S ∧ column_dtype S k' = Some v') →
  (k ∉ df_columns S →
     _check_columns S (ColDict (pre ++ (k, v) :: post)) strict =
     Raised (AssertionError,
             [Lit "Column "; FStr k; Lit " missing from DataFrame. Got ";
              Lit "columns: "; FList (df_columns S)]))
  ∧ (∀ actual, column_dtype S k = Some actual → actual ≠ v →
     _check_columns S (ColDict (pre ++ (k, v) :: post)) strict =
     Raised (AssertionError,
             [Lit "Column "; FStr k; Lit " has wrong dtype. Was "; FDtype actual;
              Lit ", expected "; FDtype v])).
Proof.
  intros Hnd Hpre.
  assert (∀ e, check_item S (k, v) = Raised e →
            _check_columns S (ColDict (pre ++ (k, v) :: post)) strict = Raised e) as Hstop.
  { intros e He.
    assert (_check_columns S (ColDict (pre ++ (k, v) :: post)) false = Raised e) as Hloose.
    { rewrite check_columns_dict_unfold. apply for_each_Raised.
      exists pre, (k, v), post. split_and!; [done| |done].
      intros [k' v'] Hy. by apply (check_item_Returned S k' v' Hnd), Hpre. }
    destruct strict; [by apply strict_check_Raised|done]. }
  split.
  - intros Hk. apply Hstop. unfold check_item. simpl.
    by rewrite bool_decide_eq_false_2.
  - intros actual Ha Hne. apply Hstop. unfold check_item.
    rewrite df_getitem_dtype_distinct by done. simpl.
    rewrite bool_decide_eq_true_2 by (apply column_dtype_is_Some; eauto). simpl.
    rewrite Ha. simpl. by rewrite bool_decide_eq_false_2.
Qed.

Lemma check_columns_dict_first_refused_witness :
  _check_columns frame_ab (ColDict [("a", int64); ("z", int64); ("b", int64)]) false =
    Raised (AssertionError,
            [Lit "Column "; FStr "z"; Lit " missing from DataFrame. Got ";
             Lit "columns: "; FList ["a"; "b"]])
  ∧ _check_columns frame_ab (ColDict [("a", int64); ("b", int64); ("z", int64)]) true =
    Raised (AssertionError,
            [Lit "Column "; FStr "b"; Lit " has wrong dtype. Was "; FDtype float64;
             Lit ", expected "; FDtype int64]).
Proof.
  assert (NoDup (df_columns frame_ab)) as Hnd by (by apply (bool_decide_unpack _)).
  assert (∀ k' v', (k', v') ∈ [("a", int64)] →
            k' ∈ df_columns frame_ab ∧ column_dtype frame_ab k' = Some v') as Hpre.
  { intros k' v' H. apply elem_of_cons in H as [[= -> ->]|H]; [|by apply elem_of_nil in H].
    split; [by apply (bool_decide_unpack _)|done]. }
  split.
  - apply (proj1 (check_columns_dict_first_refused frame_ab [("a", int64)] [("b", int64)]
                    "z" int64 false Hnd Hpre)).
    by apply (bool_decide_unpack _).
  - apply (proj2 (check_columns_dict_first_refused frame_ab [("a", int64)] [("z", int64)]
                    "b" int64 true Hnd Hpre) float64); [done|discriminate].
Defined.

(** ** The checker: frames and specifications it treats alike *)

(** More columns never break a non-strict check: when a frame passes, so
    does every frame with distinct labels that has all its columns, each
    with its element type, wherever the further columns stand. *)
Theorem check_columns_more_columns (S S' : DataFrame) (C : ColumnsDef) :
  NoDup (df_columns S') →
  (∀ column, column ∈ df_cols S → column ∈ df_cols S') →
  _check_columns S C false = Returned tt →
  _check_columns S' C false = Returned tt.
Proof.
  intros Hnd Hsub.
  assert (∀ c, c ∈ df_columns S → c ∈ df_columns S') as Hin.
  { intros c Hc. apply list_elem_of_fmap in Hc as (column & -> & Hcolumn).
    apply list_elem_of_fmap. exists column. split; [done|by apply Hsub]. }
  destruct C as [L|D].
  - rewrite !list_check_Returned. intros H c Hc. by apply Hin, H.
  - rewrite !dict_check_Returned. intros H k v Hkv.
    apply df_getitem_dtype_elem_of; [done|].
    by apply Hsub, df_getitem_dtype_Returned, H.
Qed.

Lemma check_columns_more_columns_witness :
  _check_columns frame_ab (ColDict [("b", float64)]) false = Returned tt
  ∧ _check_columns frame_ab_extra (ColDict [("b", float64)]) false = Returned tt.
Proof.
  assert (_check_columns frame_ab (ColDict [("b", float64)]) false = Returned tt) as H
    by reflexivity.
  split; [exact H|].
  apply (check_columns_more_columns frame_ab frame_ab_extra (ColDict [("b", float64)]));
    [by apply (bool_decide_unpack _) | | exact H].
  intros column Hcolumn.
  change (df_cols frame_ab_extra) with (df_cols frame_ab ++ [("extra", int64)]).
  apply elem_of_app. by left.
Defined.

(** The dict form asks for all the list form asks for: a frame that passes
    a dict-form check passes the list-form check of the dict's keys, under
    the same [strict]. *)
Theorem check_columns_dict_implies_list (S : DataFrame) (D : list (string * dtype))
    (strict : bool) :
  _check_columns S (ColDict D) strict = Returned tt →
  _check_columns S (ColList D.*1) strict = Returned tt.
Proof.
  assert (_check_columns S (ColDict D) false = Returned tt →
          _check_columns S (ColList D.*1) false = Returned tt) as Hloose.
  { rewrite list_check_Returned, dict_check_Returned. intros H c Hc.
    apply list_elem_of_fmap in Hc as ([k v] & -> & Hkv).
    by apply (df_getitem_dtype_column S k v), H. }
  destruct strict; [|done].
  rewrite !strict_check_Returned. simpl. rewrite length_fmap.
  intros [H Hlen]. split; [by apply Hloose|done].
Qed.

Lemma check_columns_dict_implies_list_witness :
  _check_columns frame_ab (ColDict [("b", float64); ("a", int64)]) true = Returned tt
  ∧ _check_columns frame_ab (ColList ["b"; "a"]) true = Returned tt.
Proof.
  assert (_check_columns frame_ab (ColDict [("b", float64); ("a", int64)]) true
          = Returned tt) as H by reflexivity.
  split; [exact H|].
  exact (check_columns_dict_implies_list frame_ab [("b", float64); ("a", int64)] true H).
Defined.

(** For a list of distinct names, the strict check accepts exactly the
    frames whose columns are these names in some order. *)
Theorem check_columns_strict_list_exact (S : DataFrame) (L : list string) :
  NoDup L →
  (_check_columns S (ColList L) true = Returned tt ↔ df_columns S ≡ₚ L).
Proof.
  intros Hnd. rewrite strict_check_Returned, list_check_Returned. simpl. split.
  - intros [Hsub Hlen]. symmetry.
    apply submseteq_length_Permutation; [by apply NoDup_submseteq|lia].
  - intros Hperm. split.
    + intros c Hc. by rewrite Hperm.
    + by rewrite Hperm.
Qed.

Lemma check_columns_strict_list_exact_witness :
  NoDup ["b"; "a"] ∧ _check_columns frame_ab (ColList ["b"; "a"]) true = Returned tt
  ∧ df_columns frame_ab ≡ₚ ["b"; "a"].
Proof.
  assert (NoDup ["b"; "a"]) as Hnd by (by apply (bool_decide_unpack _)).
  assert (_check_columns frame_ab (ColList ["b"; "a"]) true = Returned tt) as H
    by reflexivity.
  split_and!; [exact Hnd | exact H |].
  by apply (proj1 (check_columns_strict_list_exact frame_ab ["b"; "a"] Hnd)).
Defined.

(** For a dict (its keys are distinct), the strict check accepts exactly
    the frames whose columns, each with its element type, are the items of
    the dict in some order. *)
Theorem check_columns_strict_dict_exact (S : DataFrame) (D : list (string * dtype)) :
  NoDup D.*1 →
  (_check_columns S (ColDict D) true = Returned tt ↔ df_cols S ≡ₚ D).
Proof.
  intros Hnd. rewrite strict_check_Returned, dict_check_Returned. simpl. split.
  - intros [Hsub Hlen]. unfold df_columns in Hlen. rewrite length_fmap in Hlen.
    symmetry. apply submseteq_length_Permutation; [|lia].
    apply NoDup_submseteq; [by apply NoDup_fmap_1 in Hnd|].
    intros [k v] Hkv. by apply df_getitem_dtype_Returned, Hsub.
  - intros Hperm. split; [|unfold df_columns; by rewrite length_fmap, Hperm].
    intros k v Hkv. apply df_getitem_dtype_elem_of.
    + unfold df_columns. by rewrite Hperm.
    + by rewrite Hperm.
Qed.

Lemma check_columns_strict_dict_exact_witness :
  NoDup [("b", float64); ("a", int64)].*1
  ∧ _check_columns frame_ab (ColDict [("b", float64); ("a", int64)]) true = Returned tt
  ∧ df_cols frame_ab ≡ₚ [("b", float64); ("a", int64)].
Proof.
  assert (NoDup [("b", float64); ("a", int64)].*1) as Hnd
    by (by apply (bool_decide_unpack _)).
  assert (_check_columns frame_ab (ColDict [("b", float64); ("a", int64)]) true
          = Returned tt) as H by reflexivity.
  split_and!; [exact Hnd | exact H |].
  by apply (proj1 (check_columns_strict_dict_exact frame_ab _ Hnd)).
Defined.

Lemma nonstrict_names_are_columns S C :
  _check_columns S C false = Returned tt → ∀ c, c ∈ spec_names C → c ∈ df_columns S.
Proof.
  destruct C as [L|D]; simpl.
  - by rewrite list_check_Returned.
  - rewrite dict_check_Returned. intros H c Hc.
    apply list_elem_of_fmap in Hc as ([k v] & -> & Hkv).
    by apply (df_getitem_dtype_column S k v), H.
Qed.

Lemma spec_len_names C : spec_len C = length (spec_names C).
Proof. destruct C; simpl; [done|by rewrite length_fmap]. Qed.

(** When the declared names are distinct and the labels of the frame are
    distinct, a check that fails on strictness alone names something: the
    listed set is not empty, and it holds exactly the columns of the frame
    that the specification does not declare. *)
Theorem check_columns_strict_failure_names (S : DataFrame) (C : ColumnsDef) :
  NoDup (spec_names C) → NoDup (df_columns S) →
  _check_columns S C false = Returned tt → length (df_columns S) ≠ spec_len C →
  ∃ unexpected : gset string,
    _check_columns S C true =
      Raised (AssertionError,
              [Lit "DataFrame contained unexpected column(s): "; FJoin ", " unexpected])
    ∧ (∃ x, x ∈ unexpected)
    ∧ (∀ x, x ∈ unexpected ↔ x ∈ df_columns S ∧ x ∉ spec_names C).
Proof.
  intros Hnames Hcols Hloose Hlen.
  exists (list_to_set (df_columns S) ∖ list_to_set (spec_names C)).
  assert (∀ x, x ∈ (list_to_set (df_columns S) ∖ list_to_set (spec_names C) : gset string)
               ↔ x ∈ df_columns S ∧ x ∉ spec_names C) as Hset.
  { intros x. by rewrite elem_of_difference, !elem_of_list_to_set. }
  split_and!; [|clear Hset|exact Hset].
  - rewrite check_columns_strict_unfold, Hloose. simpl.
    by rewrite bool_decide_eq_false_2.
  - destruct (decide (Forall (λ x, x ∈ spec_names C) (df_columns S))) as [Hall|Hsome].
    + exfalso. apply Hlen. rewrite spec_len_names. apply Nat.le_antisymm.
      * apply submseteq_length, NoDup_submseteq; [done|].
        intros x Hx. by apply (proj1 (Forall_forall _ _) Hall).
      * apply submseteq_length, NoDup_submseteq; [done|].
        by apply nonstrict_names_are_columns.
    + apply not_Forall_Exists in Hsome; [|apply _].
      apply Exists_exists in Hsome as (x & Hx & Hout). exists x.
      rewrite elem_of_difference, !elem_of_list_to_set. done.
Qed.

Lemma check_columns_strict_failure_names_witness :
  ∃ unexpected : gset string,
    _check_columns frame_ab_extra (ColDict [("b", float64)]) true =
      Raised (AssertionError,
              [Lit "DataFrame contained unexpected column(s): "; FJoin ", " unexpected])
    ∧ (∃ x, x ∈ unexpected)
    ∧ (∀ x, x ∈ unexpected ↔
            x ∈ df_columns frame_ab_extra ∧ x ∉ spec_names (ColDict [("b", float64)])).
Proof.
  apply (check_columns_strict_failure_names frame_ab_extra (ColDict [("b", float64)])).
  - by apply (bool_decide_unpack _).
  - by apply (bool_decide_unpack _).
  - reflexivity.
  - simpl. lia.
Defined.

(** Acceptance does not depend on the order in which a specification lists
    its entries; the order only decides which failure is reported. *)
Theorem check_columns_spec_order (S : DataFrame) (strict : bool) :
  (∀ L L', L ≡ₚ L' →
     (_check_columns S (ColList L) strict = Returned tt ↔
      _check_columns S (ColList L') strict = Returned tt))
  ∧ (∀ D D', D ≡ₚ D' →
     (_check_columns S (ColDict D) strict = Returned tt ↔
      _check_columns S (ColDict D') strict = Returned tt)).
Proof.
  assert (∀ L L', L ≡ₚ L' →
     (_check_columns S (ColList L) false = Returned tt ↔
      _check_columns S (ColList L') false = Returned tt)) as Hlist.
  { intros L L' Hperm. rewrite !list_check_Returned.
    apply forall_proper; intros c. by rewrite Hperm. }
  assert (∀ D D', D ≡ₚ D' →
     (_check_columns S (ColDict D) false = Returned tt ↔
      _check_columns S (ColDict D') false = Returned tt)) as Hdict.
  { intros D D' Hperm. rewrite !dict_check_Returned.
    apply forall_proper; intros k. apply forall_proper; intros v. by rewrite Hperm. }
  destruct strict; [|done]. split.
  - intros L L' Hperm. rewrite !strict_check_Returned. simpl.
    by rewrite (Hlist L L' Hperm), Hperm.
  - intros D D' Hperm. rewrite !strict_check_Returned. simpl.
    by rewrite (Hdict D D' Hperm), Hperm.
Qed.

Lemma check_columns_spec_order_witness :
  _check_columns frame_ab (ColList ["a"; "b"]) true = Returned tt
  ∧ _check_columns frame_ab (ColList ["b"; "a"]) true = Returned tt.
Proof.
  assert (_check_columns frame_ab (ColList ["a"; "b"]) true = Returned tt) as H
    by reflexivity.
  split; [exact H|].
  apply (proj1 (check_columns_spec_order frame_ab true) ["a"; "b"] ["b"; "a"]); [|exact H].
  apply perm_swap.
Defined.

(** Nor does it depend on the order of the columns of a frame whose labels
    are distinct. *)
Theorem check_columns_frame_order (S S' : DataFrame) (C : ColumnsDef) (strict : bool) :
  NoDup (df_columns S) → df_cols S ≡ₚ df_cols S' →
  (_check_columns S C strict = Returned tt ↔ _check_columns S' C strict = Returned tt).
Proof.
  intros Hnd Hperm.
  assert (df_columns S ≡ₚ df_columns S') as Hcols by (unfold df_columns; by rewrite Hperm).
  assert (NoDup (df_columns S')) as Hnd' by (by rewrite <- Hcols).
  assert (∀ k v, column_dtype S k = Some v ↔ column_dtype S' k = Some v) as Hdtype.
  { intros k v. unfold column_dtype. split; intros H.
    - apply assoc_NoDup_elem_of; [done|]. rewrite <- Hperm. by apply assoc_Some_elem_of.
    - apply assoc_NoDup_elem_of; [done|]. rewrite Hperm. by apply assoc_Some_elem_of. }
  assert (_check_columns S C false = Returned tt ↔
          _check_columns S' C false = Returned tt) as Hloose.
  { destruct C as [L|D].
    - rewrite !list_check_Returned. apply forall_proper; intros c. by rewrite Hcols.
    - rewrite !dict_check_Returned. apply forall_proper; intros k.
      apply forall_proper; intros v.
      by rewrite (df_getitem_dtype_Returned_distinct S k v Hnd),
        (df_getitem_dtype_Returned_distinct S' k v Hnd'), Hdtype. }
  destruct strict; [|done].
  by rewrite !strict_check_Returned, Hloose, Hcols.
Qed.

Lemma check_columns_frame_order_witness :
  _check_columns frame_ab (ColDict [("a", int64)]) false = Returned tt
  ∧ _check_columns (Frame [("b", float64); ("a", int64)]) (ColDict [("a", int64)]) false
    = Returned tt.
Proof.
  assert (_check_columns frame_ab (ColDict [("a", int64)]) false = Returned tt) as H
    by reflexivity.
  split; [exact H|].
  apply (proj1 (check_columns_frame_order frame_ab (Frame [("b", float64); ("a", int64)])
                  (ColDict [("a", int64)]) false
                  ltac:(by apply (bool_decide_unpack _)) ltac:(apply perm_swap)) H).
Defined.

(** ** The locator: names outside the signature, and the two ways to pass
       an argument *)







(** ** The guards: their failures *)

(** The input guard runs [func] only after locating, type test and column
    check: when the locating call raises, or when the located frame fails
    the column check, that exception is the outcome of the guarded call
    and the world is as it was. *)
Theorem df_in_failures (name : option string) (columns : option ColumnsDef) (strict : bool)
    (func : Callable) (args : list value) (kwargs : list (string * value)) (w : world)
    (e : exn) :
  (call__get_parameter func name args kwargs = Raised e →
     fn_call (df_in name columns strict func) args kwargs w = (Raised e, w))
  ∧ (∀ frame, call__get_parameter func name args kwargs = Returned (VDataFrame frame) →
       check_if_given frame columns strict = Raised e →
       fn_call (df_in name columns strict func) args kwargs w = (Raised e, w)).
Proof.
  split.
  - intros Hloc. simpl. by rewrite (py_bind_lift_Raised _ e).
  - intros frame Hloc Hcheck. simpl.
    rewrite (py_bind_lift_Returned _ (VDataFrame frame)) by done.
    rewrite (py_bind_lift_Returned _ frame) by done.
    by rewrite (py_bind_lift_Raised _ e).
Qed.

Lemma df_in_failures_witness :
  fn_call (df_in (Some "frame") None false probe) [VDataFrame frame_ab] [] w0 =
    (Raised (ValueError, [FRepr "frame"; Lit " is not in list"]), w0)
  ∧ fn_call (df_in None (Some (ColList ["a"; "c"])) false probe) [VDataFrame frame_ab] [] w0 =
    (Raised (AssertionError, missing_column_msg "c" frame_ab), w0).
Proof.
  split.
  - apply (proj1 (df_in_failures (Some "frame") None false probe [VDataFrame frame_ab] []
                    w0 (ValueError, [FRepr "frame"; Lit " is not in list"]))).
    reflexivity.
  - apply (proj2 (df_in_failures None (Some (ColList ["a"; "c"])) false probe
                    [VDataFrame frame_ab] [] w0
                    (AssertionError, missing_column_msg "c" frame_ab)) frame_ab);
      reflexivity.
Defined.

(** The output guard validates what [func] returned after [func] ran: a
    returned value that is no frame gives the [AssertionError] naming its
    type, a returned frame that fails the column check gives the checker's
    exception, and in both cases the effects of [func] stay. *)
Theorem df_out_failures (columns : option ColumnsDef) (strict : bool) (func : Callable)
    (args : list value) (kwargs : list (string * value)) (w w' : world) :
  (∀ result, fn_call func args kwargs w = (Returned result, w') →
     is_dataframe result = false →
     fn_call (df_out columns strict func) args kwargs w =
     (Raised (AssertionError,
              [Lit "Wrong return type. Expected pandas dataframe, got ";
               FType (type_name result)]), w'))
  ∧ (∀ frame e, fn_call func args kwargs w = (Returned (VDataFrame frame), w') →
       check_if_given frame columns strict = Raised e →
       fn_call (df_out columns strict func) args kwargs w = (Raised e, w')).
Proof.
  split.
  - intros result Hf Hresult. simpl.
    rewrite (py_bind_Returned _ result _ w w') by done.
    by rewrite (py_bind_lift_Raised _ (AssertionError, wrong_return_type_msg result))
      by (by apply assert_dataframe_other).
  - intros frame e Hf Hcheck. simpl.
    rewrite (py_bind_Returned _ (VDataFrame frame) _ w w') by done.
    rewrite (py_bind_lift_Returned _ frame) by done.
    by rewrite (py_bind_lift_Raised _ e).
Qed.

Lemma df_out_failures_witness :
  fn_call (df_out None false probe) [VInt 3] [] w0 =
    (Raised (AssertionError,
             [Lit "Wrong return type. Expected pandas dataframe, got "; FType "int"]),
     World [] [VStr "probe ran"])
  ∧ fn_call (df_out (Some (ColList ["a"])) true probe) [VDataFrame frame_ab] [] w0 =
    (Raised (AssertionError, unexpected_columns_msg frame_ab (ColList ["a"])),
     World [] [VStr "probe ran"]).
Proof.
  split.
  - apply (proj1 (df_out_failures None false probe [VInt 3] [] w0
                    (World [] [VStr "probe ran"])) (VInt 3)); reflexivity.
  - apply (proj2 (df_out_failures (Some (ColList ["a"])) true probe [VDataFrame frame_ab] []
                    w0 (World [] [VStr "probe ran"])) frame_ab); reflexivity.
Defined.

(** ** The decorators stacked *)

(** The locating call reads only the signature of the function, which
    [@wraps] hands on. *)
Lemma call__get_parameter_wraps (g f : Callable) name args kwargs :
  fn_params g = fn_params f →
  call__get_parameter g name args kwargs = call__get_parameter f name args kwargs.
Proof. intros H. unfold call__get_parameter, _get_parameter. by rewrite H. Qed.

(** The two guards can be stacked in either order: the input is validated
    before [func] runs and the output after it, with the same outcome and
    the same effects. *)
Theorem guards_commute (name : option string) (c_in : option ColumnsDef) (s_in : bool)
    (c_out : option ColumnsDef) (s_out : bool) (func : Callable)
    (args : list value) (kwargs : list (string * value)) (w : world) :
  fn_call (df_out c_out s_out (df_in name c_in s_in func)) args kwargs w =
  fn_call (df_in name c_in s_in (df_out c_out s_out func)) args kwargs w.
Proof.
  simpl.
  rewrite (call__get_parameter_wraps (df_out c_out s_out func) func) by done.
  unfold mbind, py_bind, lift.
  destruct (call__get_parameter func name args kwargs) as [df|e]; [|done].
  destruct (assert_dataframe df _) as [frame|e]; [|done].
  destruct (check_if_given frame c_in s_in) as [[]|e]; done.
Qed.

(** Applying a guard twice is applying it once. *)
Theorem guards_idempotent (name : option string) (columns : option ColumnsDef)
    (strict : bool) (func : Callable) (args : list value) (kwargs : list (string * value))
    (w : world) :
  fn_call (df_in name columns strict (df_in name columns strict func)) args kwargs w =
    fn_call (df_in name columns strict func) args kwargs w
  ∧ fn_call (df_out columns strict (df_out columns strict func)) args kwargs w =
    fn_call (df_out columns strict func) args kwargs w.
Proof.
  split; simpl.
  - rewrite (call__get_parameter_wraps (df_in name columns strict func) func) by done.
    unfold mbind, py_bind, lift.
    destruct (call__get_parameter func name args kwargs) as [df|e]; [|done].
    destruct (assert_dataframe df _) as [frame|e]; [|done].
    destruct (check_if_given frame columns strict) as [[]|e]; done.
  - unfold mbind, py_bind, lift.
    destruct (fn_call func args kwargs w) as [[result|e] w']; [|done].
    destruct (assert_dataframe result _) as [frame|e] eqn:Hframe; [|done].
    destruct (check_if_given frame columns strict) as [[]|e] eqn:Hcheck; [|done].
    simpl. by rewrite ?Hframe, ?Hcheck.
Qed.

(** An output guard stacked on the shape logger never lets a call return:
    the logger hands on [None], which is no frame. *)
Theorem df_out_over_df_log (columns : option ColumnsDef) (strict : bool) (level : Z)
    (include_dtypes : bool) (func : Callable) (args : list value)
    (kwargs : list (string * value)) (w : world) :
  (∀ r w', fn_call (df_out columns strict (df_log level include_dtypes func)) args kwargs w
           ≠ (Returned r, w'))
  ∧ (∀ r w', fn_call (df_log level include_dtypes func) args kwargs w = (Returned r, w') →
       fn_call (df_out columns strict (df_log level include_dtypes func)) args kwargs w =
       (Raised (AssertionError,
                [Lit "Wrong return type. Expected pandas dataframe, got ";
                 FType "NoneType"]), w')).
Proof.
  assert (∀ r w', fn_call (df_log level include_dtypes func) args kwargs w = (Returned r, w')
                  → r = VNone) as Hnone.
  { intros r w'. simpl. unfold mbind, py_bind, lift.
    destruct (call__get_parameter func None args kwargs) as [p|e]; [|done].
    rewrite (log_input_returns level (fn_name func) p include_dtypes w).
    destruct (fn_call func args kwargs _) as [[result|e] w2]; [|done].
    rewrite (log_output_returns level (fn_name func) result include_dtypes w2).
    by intros [= <- _]. }
  split.
  - intros r w'.
    change (fn_call (df_out columns strict (df_log level include_dtypes func)) args kwargs w)
      with ((fn_call (df_log level include_dtypes func) args kwargs ≫= λ result,
             lift (assert_dataframe result (wrong_return_type_msg result)) ≫= λ frame,
             lift (check_if_given frame columns strict) ≫= λ _, mret result) w).
    destruct (fn_call (df_log level include_dtypes func) args kwargs w)
      as [[r0|e] w1] eqn:Hlog.
    + rewrite (py_bind_Returned _ r0 _ w w1 Hlog).
      rewrite (Hnone r0 w1 eq_refl). done.
    + by rewrite (py_bind_Raised _ e _ w w1 Hlog).
  - intros r w' Hlog.
    change (fn_call (df_out columns strict (df_log level include_dtypes func)) args kwargs w)
      with ((fn_call (df_log level include_dtypes func) args kwargs ≫= λ result,
             lift (assert_dataframe result (wrong_return_type_msg result)) ≫= λ frame,
             lift (check_if_given frame columns strict) ≫= λ _, mret result) w).
    rewrite (py_bind_Returned _ r _ w w' Hlog).
    by rewrite (Hnone r w' Hlog).
Qed.

Lemma df_out_over_df_log_witness :
  fn_call (df_out None false (df_log 10 false probe)) [VDataFrame frame_a] [] w0 =
  (Raised (AssertionError,
           [Lit "Wrong return type. Expected pandas dataframe, got "; FType "NoneType"]),
   World [LogRecord 10 [Lit "Function "; FStr "probe";
                        Lit " parameters contained a DataFrame: ";
                        Lit "columns: "; FList ["a"]];
          LogRecord 10 [Lit "Function "; FStr "probe";
                        Lit " returned a DataFrame: ";
                        Lit "columns: "; FList ["a"]]]
         [VStr "probe ran"]).
Proof.
  apply (proj2 (df_out_over_df_log None false 10 false probe [VDataFrame frame_a] [] w0)
           VNone).
  reflexivity.
Defined.

(** ** The shape logger: what it records and when it fails *)

(** What a call of a decorated function does when no keyword of the call
    is spelled [func] or [name]: the first positional argument is logged if
    it is a frame, [func] runs in the world so reached, and its result is
    logged if it is a frame. *)
Lemma df_log_unfold level include_dtypes func args kwargs w :
  (∀ k, k ∈ kwargs.*1 → k ≠ "func" ∧ k ≠ "name") →
  fn_call (df_log level include_dtypes func) args kwargs w =
  match fn_call func args kwargs
          (_log_input level (fn_name func)
             (match args with [] => VNone | first :: _ => first end) include_dtypes w).2
  with
  | (Returned result, w2) =>
      (Returned VNone, (_log_output level (fn_name func) result include_dtypes w2).2)
  | (Raised e, w2) => (Raised e, w2)
  end.
Proof.
  intros Hfree. simpl. rewrite call__get_parameter_no_clash by done.
  assert (_get_parameter func None args kwargs =
          Returned (match args with [] => VNone | first :: _ => first end)) as ->
    by (unfold _get_parameter; simpl; by destruct args).
  unfold mbind, py_bind, lift.
  rewrite (log_input_returns level (fn_name func) _ include_dtypes w).
  destruct (fn_call func args kwargs _) as [[result|e] w2]; [|done].
  by rewrite (log_output_returns level (fn_name func) result include_dtypes w2).
Qed.

(** The shape logger raises nothing of its own over the shape of what it
    sees: without a keyword spelled [func] or [name], a decorated call
    raises exactly when [func] raises, the same exception, and then only
    the record of the input has been added. *)
Theorem df_log_fails_as_func (level : Z) (include_dtypes : bool) (func : Callable)
    (args : list value) (kwargs : list (string * value)) (w w' : world) (e : exn) :
  (∀ k, k ∈ kwargs.*1 → k ≠ "func" ∧ k ≠ "name") →
  (fn_call (df_log level include_dtypes func) args kwargs w = (Raised e, w') ↔
   fn_call func args kwargs
     (_log_input level (fn_name func)
        (match args with [] => VNone | first :: _ => first end) include_dtypes w).2
   = (Raised e, w')).
Proof.
  intros Hfree. rewrite df_log_unfold by done.
  destruct (fn_call func args kwargs _) as [[result|e'] w2]; [|done].
  split; intros H; discriminate H.
Qed.

Lemma df_log_fails_as_func_witness :
  fn_call (df_log 10 true failing) [VDataFrame frame_a] [] w0 =
  (Raised (UserError "RuntimeError", [Lit "boom"]),
   World [LogRecord 10 [Lit "Function "; FStr "failing";
                        Lit " parameters contained a DataFrame: ";
                        Lit "columns: "; FList ["a"];
                        Lit " with dtypes "; FList ["int64"]]]
         [VStr "failing ran"]).
Proof.
  apply (proj2 (df_log_fails_as_func 10 true failing [VDataFrame frame_a] [] w0 _ _
                  ltac:(intros k Hk; by apply elem_of_nil in Hk))).
  reflexivity.
Defined.

(** Values that are no frames pass the shape logger unseen: when neither
    the first positional argument nor the result of [func] is a frame, the
    decorated call leaves the world exactly as [func] alone would. *)
Theorem df_log_silent (level : Z) (include_dtypes : bool) (func : Callable)
    (args : list value) (kwargs : list (string * value)) (w w' : world) (result : value) :
  (∀ k, k ∈ kwargs.*1 → k ≠ "func" ∧ k ≠ "name") →
  is_dataframe (match args with [] => VNone | first :: _ => first end) = false →
  fn_call func args kwargs w = (Returned result, w') →
  is_dataframe result = false →
  fn_call (df_log level include_dtypes func) args kwargs w = (Returned VNone, w').
Proof.
  intros Hfree Hin Hf Hout. rewrite df_log_unfold by done.
  assert (∀ v, is_dataframe v = false →
            ∀ w1, (_log_input level (fn_name func) v include_dtypes w1).2 = w1
                  ∧ (_log_output level (fn_name func) v include_dtypes w1).2 = w1) as Hskip.
  { intros v Hv w1. by destruct v. }
  rewrite (proj1 (Hskip _ Hin w)), Hf. by rewrite (proj2 (Hskip _ Hout w')).
Qed.

Lemma df_log_silent_witness :
  fn_call (df_log 10 false probe) [] [("df", VDataFrame frame_a)] w0 =
  (Returned VNone, World [] [VStr "probe ran"]).
Proof.
  apply (df_log_silent 10 false probe [] [("df", VDataFrame frame_a)] w0
           (World [] [VStr "probe ran"]) VNone).
  - intros k Hk. apply elem_of_cons in Hk as [->|Hk]; [done|]. by apply elem_of_nil in Hk.
  - reflexivity.
  - reflexivity.
  - reflexivity.
Defined.

(** A frame passed as first positional argument is recorded before [func]
    runs, a frame that [func] returns is recorded after it: each record
    carries the given level, the name of [func] and the frame's columns,
    with one element-type name per column when these are asked for. *)
Theorem df_log_records (level : Z) (include_dtypes : bool) (func : Callable)
    (frame_in frame_out : DataFrame) (rest : list value) (kwargs : list (string * value))
    (w w2 : world) :
  (∀ k, k ∈ kwargs.*1 → k ≠ "func" ∧ k ≠ "name") →
  fn_call func (VDataFrame frame_in :: rest) kwargs
    (World (logged w ++
              [LogRecord level
                 ([Lit "Function "; FStr (fn_name func);
                   Lit " parameters contained a DataFrame: "]
                  ++ _describe_pd frame_in include_dtypes)])
           (effects w))
    = (Returned (VDataFrame frame_out), w2) →
  fn_call (df_log level include_dtypes func) (VDataFrame frame_in :: rest) kwargs w =
    (Returned VNone,
     World (logged w2 ++
              [LogRecord level
                 ([Lit "Function "; FStr (fn_name func); Lit " returned a DataFrame: "]
                  ++ _describe_pd frame_out include_dtypes)])
           (effects w2))
  ∧ _describe_pd frame_out false = [Lit "columns: "; FList (df_columns frame_out)]
  ∧ ∃ names, _describe_pd frame_out true =
               [Lit "columns: "; FList (df_columns frame_out);
                Lit " with dtypes "; FList names]
             ∧ length names = length (df_columns frame_out).
Proof.
  intros Hfree Hf. split_and!.
  - rewrite df_log_unfold by done.
    unfold _log_input at 1. unfold logging_log at 1. cbn [snd]. by rewrite Hf.
  - reflexivity.
  - exists (dtype_name <$> df_dtypes frame_out). split; [reflexivity|].
    unfold df_dtypes, df_columns. by rewrite !length_fmap.
Qed.

Lemma df_log_records_witness :
  fn_call (df_log 20 true merge) [VDataFrame frame_ab; VInt 1] [] w0 =
  (Returned VNone,
   World [LogRecord 20 [Lit "Function "; FStr "merge";
                        Lit " parameters contained a DataFrame: ";
                        Lit "columns: "; FList ["a"; "b"];
                        Lit " with dtypes "; FList ["int64"; "float64"]];
          LogRecord 20 [Lit "Function "; FStr "merge";
                        Lit " returned a DataFrame: ";
                        Lit "columns: "; FList ["a"; "b"];
                        Lit " with dtypes "; FList ["int64"; "float64"]]]
         [VStr "merge ran"]).
Proof.
  apply (df_log_records 20 true merge frame_ab frame_ab [VInt 1] [] w0
           (World [LogRecord 20 [Lit "Function "; FStr "merge";
                                 Lit " parameters contained a DataFrame: ";
                                 Lit "columns: "; FList ["a"; "b"];
                                 Lit " with dtypes "; FList ["int64"; "float64"]]]
                  [VStr "merge ran"])).
  - intros k Hk. by apply elem_of_nil in Hk.
  - reflexivity.
Defined.
